(** * The reply pipeline of app.py (LINE bot on AWS Lambda)

    A shallow embedding of the response-generation code of [src/app.py]:
    [clean_text], [perform_search], [call_openrouter_api],
    [generate_ai_response_http], [generate_contextual_response],
    [analyze_search_need], [should_search], [extract_search_query] and
    [generate_response], together with the part of Python's [str] and [re]
    they rely on.

    - A Python [str] is a list of Unicode code points ([N]).
    - A Python value that is either [None] or a [str] is an [option str].
    - The calls that leave the process ([DDGS().text], [requests.post],
      [datetime.now]) are the nodes of a small free monad [prog]; an
      exception is the leaf [Throw].  [run] interprets a program against a
      [world] that answers every call, and returns the calls made, in order,
      with the final outcome.
    - [logger] calls have no effect on the result and are left out. *)

From Stdlib Require Import String Ascii DecimalString.
From Stdlib Require Import ZArith NArith Bool Lia List.
Import ListNotations.

Set Implicit Arguments.

(* ================================================================== *)
(** ** Python strings *)

Module Py.

Definition char := N.
Definition str := list char.

(** An ASCII-only literal, character by character. *)
Definition lit (s : string) : str :=
  List.map N_of_ascii (list_ascii_of_string s).

(** [str.isspace] on one character; the class [\s] of [re] on [str]
    patterns is the same set. *)
Definition is_space (c : char) : bool :=
  (((9 <=? c) && (c <=? 13)) || ((28 <=? c) && (c <=? 32))
   || (c =? 0x85) || (c =? 0xA0) || (c =? 0x1680)
   || ((0x2000 <=? c) && (c <=? 0x200A))
   || (c =? 0x2028) || (c =? 0x2029) || (c =? 0x202F)
   || (c =? 0x205F) || (c =? 0x3000))%N.

Fixpoint lstrip (s : str) : str :=
  match s with
  | c :: s' => if is_space c then lstrip s' else s
  | [] => []
  end.

Definition rstrip (s : str) : str := rev (lstrip (rev s)).

(** [s.strip()] *)
Definition strip (s : str) : str := rstrip (lstrip s).

Definition eqb_str (a b : str) : bool :=
  if list_eq_dec N.eq_dec a b then true else false.

(** [s.startswith(p)] *)
Fixpoint startswith (p s : str) : bool :=
  match p, s with
  | [], _ => true
  | _ :: _, [] => false
  | a :: p', b :: s' => (a =? b)%N && startswith p' s'
  end.

(** [needle in hay] *)
Fixpoint contains (needle hay : str) : bool :=
  startswith needle hay ||
  match hay with
  | [] => false
  | _ :: hay' => contains needle hay'
  end.

(** [l[:n]] for an integer [n] of either sign. *)
Definition slice_to {A : Type} (n : Z) (l : list A) : list A :=
  if (0 <=? n)%Z then firstn (Z.to_nat n) l
  else firstn (length l - Z.to_nat (- n)) l.

(** [sep.join(parts)] *)
Fixpoint join (sep : str) (parts : list str) : str :=
  match parts with
  | [] => []
  | [p] => p
  | p :: ps => p ++ sep ++ join sep ps
  end.

(** [str(i)] for a natural number. *)
Definition str_of_nat (n : nat) : str :=
  lit (NilZero.string_of_uint (Nat.to_uint n)).

(** Truth value of an object that is [None] or a [str]. *)
Definition truthy (v : option str) : bool :=
  match v with
  | Some (_ :: _) => true
  | _ => false
  end.

(** [str.lower] restricted to ASCII text: on a message of ASCII characters
    it is Python's [lower]. *)
Definition ascii_lower_char (c : char) : char :=
  if ((65 <=? c) && (c <=? 90))%N then (c + 32)%N else c.

Definition ascii_lower (s : str) : str := List.map ascii_lower_char s.

End Py.
Import Py.

(* ================================================================== *)
(** ** The fragment of [re] the program uses

    Every pattern of the program is a sequence of pieces, each one character
    class under a quantifier; at most one group, made of one piece.  The
    matcher is the backtracking one of [re]: a greedy quantifier first tries
    the longest repetition and gives characters back one at a time. *)

Module Re.

Inductive quant := One | Opt | Star | Plus.

Record piece := Piece {
  cls : char -> bool;
  qnt : quant;
  in_group : bool
}.

Definition pattern := list piece.

(** Greedy repetition of class [p], then the continuation [cont]; [keep]
    records a consumed character in the result. *)
Fixpoint star {R : Type} (p : char -> bool) (keep : char -> R -> R)
    (cont : str -> option R) (s : str) : option R :=
  match s with
  | c :: s' =>
      if p c then
        match star p keep cont s' with
        | Some r => Some (keep c r)
        | None => cont s
        end
      else cont s
  | [] => cont []
  end.

(** Match at the start of [s]: group 1 and the text after the match. *)
Fixpoint match_here (ps : pattern) (s : str) : option (str * str) :=
  match ps with
  | [] => Some ([], s)
  | p :: ps' =>
      let cont := match_here ps' in
      let keep c (r : str * str) :=
        if in_group p then (c :: fst r, snd r) else r in
      match qnt p with
      | One =>
          match s with
          | c :: s' => if cls p c then option_map (keep c) (cont s') else None
          | [] => None
          end
      | Opt =>
          match s with
          | c :: s' =>
              if cls p c then
                match cont s' with
                | Some r => Some (keep c r)
                | None => cont s
                end
              else cont s
          | [] => cont []
          end
      | Star => star (cls p) keep cont s
      | Plus =>
          match s with
          | c :: s' =>
              if cls p c then option_map (keep c) (star (cls p) keep cont s')
              else None
          | [] => None
          end
      end
  end.

(** [re.search(ps, s)]: the leftmost match; group 1 of it. *)
Fixpoint search (ps : pattern) (s : str) : option str :=
  match match_here ps s with
  | Some r => Some (fst r)
  | None =>
      match s with
      | [] => None
      | _ :: s' => search ps s'
      end
  end.

(** Number of characters of the match at the start of [s]. *)
Definition match_len (ps : pattern) (s : str) : option nat :=
  match match_here ps s with
  | Some r => Some (length s - length (snd r))
  | None => None
  end.

(** [re.sub(ps, repl, s)] for a pattern that matches no empty string (all
    three patterns of [clean_text] begin with a mandatory character): scan
    from the left; at a match write [repl] and skip the matched characters,
    otherwise copy one character.  [skip] counts the characters of the
    current match still to be dropped. *)
Fixpoint sub_from (ps : pattern) (repl : str) (skip : nat) (s : str) : str :=
  match s with
  | [] => []
  | c :: s' =>
      match skip with
      | S n => sub_from ps repl n s'
      | O =>
          match match_len ps s with
          | Some (S n) => repl ++ sub_from ps repl n s'
          | Some O => repl ++ c :: sub_from ps repl 0 s'
          | None => c :: sub_from ps repl 0 s'
          end
      end
  end.

Definition sub (ps : pattern) (repl : str) (s : str) : str :=
  sub_from ps repl 0 s.

(** Character classes. *)
Definition chr (a : char) : char -> bool := fun c => (c =? a)%N.
Definition not_in (l : list char) : char -> bool :=
  fun c => negb (existsb (N.eqb c) l).
Definition in_range (lo hi : char) : char -> bool :=
  fun c => ((lo <=? c) && (c <=? hi))%N.

(** A literal character under [re.IGNORECASE] in a [str] pattern: the two
    ASCII cases of a letter, and the other characters [re] folds to an
    ASCII letter (the long s for s, the Kelvin sign for k, the dotted
    capital and dotless small i for i). *)
Definition chr_i (a : char) : char -> bool :=
  fun c =>
    let lo := ascii_lower_char a in
    ((ascii_lower_char c =? lo)
     || ((lo =? 115) && (c =? 0x17F))
     || ((lo =? 107) && (c =? 0x212A))
     || ((lo =? 105) && ((c =? 0x130) || (c =? 0x131))))%N.

Definition lit1 (f : char -> char -> bool) (a : char) : piece :=
  Piece (f a) One false.

(** A literal text, case-sensitive or not. *)
Definition text (s : string) : pattern := List.map (lit1 chr) (lit s).
Definition text_i (s : string) : pattern := List.map (lit1 chr_i) (lit s).

End Re.

(* ================================================================== *)
(** ** Exceptions, outcomes and the calls that leave the process *)

(** The exceptions the program can meet; all are subclasses of
    [Exception], so an [except Exception] clause catches each of them. *)
Inductive exn :=
| ConnectionError      (* requests.post: no connection, timeout *)
| HTTPError            (* response.raise_for_status() *)
| JSONDecodeError      (* response.json() *)
| LookupError          (* result["choices"][0]["message"]["content"].strip() *)
| SearchBackendError.  (* DDGS() / ddgs.text(...) *)

Inductive outcome (T : Type) : Type :=
| Returned (t : T)
| Raised (e : exn).
Arguments Raised {T} e.

(** One entry of the list [ddgs.text] returns: a dict whose keys [title],
    [body] and [href] may each be missing. *)
Record hit := Hit {
  title : option str;
  body : option str;
  href : option str
}.

(** The json argument of [requests.post], with the bearer token of the
    Authorization header.  The temperature is the constant 0.7, kept in
    tenths. *)
Record completion_request := CompletionRequest {
  authorization : option str;
  model : option str;
  system_content : str;
  user_content : str;
  max_tokens : Z;
  temperature_tenths : Z
}.

(** What the decoded body of the reply holds at
    [["choices"][0]["message"]["content"]]. *)
Inductive reply_body :=
| NotJson
| NoContent
| Content (text : str).

Record http_response := HttpResponse {
  status_ok : bool;      (* raise_for_status() passes *)
  reply : reply_body
}.

Inductive prog (A : Type) : Type :=
| Ret (a : A)
| Throw (e : exn)
| Ddgs_text (query : str) (max_results : Z)
    (k : outcome (list hit) -> prog A)
| Requests_post (req : completion_request)
    (k : outcome http_response -> prog A)
| Datetime_now (k : str -> prog A).
Arguments Throw {A} e.

Fixpoint bind {A B : Type} (p : prog A) (f : A -> prog B) : prog B :=
  match p with
  | Ret a => f a
  | Throw e => Throw e
  | Ddgs_text q m k => Ddgs_text q m (fun o => bind (k o) f)
  | Requests_post r k => Requests_post r (fun o => bind (k o) f)
  | Datetime_now k => Datetime_now (fun t => bind (k t) f)
  end.

(** [try: p  except Exception as e: h e] *)
Fixpoint try_except {A : Type} (p : prog A) (h : exn -> prog A) : prog A :=
  match p with
  | Ret a => Ret a
  | Throw e => h e
  | Ddgs_text q m k => Ddgs_text q m (fun o => try_except (k o) h)
  | Requests_post r k => Requests_post r (fun o => try_except (k o) h)
  | Datetime_now k => Datetime_now (fun t => try_except (k t) h)
  end.

Definition of_outcome {A : Type} (o : outcome A) : prog A :=
  match o with
  | Returned a => Ret a
  | Raised e => Throw e
  end.

Definition ddgs_text (query : str) (max_results : Z) : prog (list hit) :=
  Ddgs_text query max_results of_outcome.
Definition requests_post (req : completion_request) : prog http_response :=
  Requests_post req of_outcome.
Definition datetime_now : prog str := Datetime_now (@Ret str).

Declare Scope prog_scope.
Delimit Scope prog_scope with prog.
Notation "x <- p ;; q" := (bind p (fun x => q))
  (at level 100, p at next level, right associativity) : prog_scope.
Open Scope prog_scope.

(** *** Running a program *)

Inductive event :=
| Ev_ddgs_text (query : str) (max_results : Z) (o : outcome (list hit))
| Ev_requests_post (req : completion_request) (o : outcome http_response)
| Ev_datetime_now (t : str).

(** The outside world: the answer to each call, which may depend on the
    calls made before it. *)
Record world := World {
  w_ddgs_text : list event -> str -> Z -> outcome (list hit);
  w_requests_post : list event -> completion_request -> outcome http_response;
  w_datetime_now : list event -> str
}.

Fixpoint run_from {A : Type} (w : world) (past : list event) (p : prog A)
  : list event * outcome A :=
  match p with
  | Ret a => ([], Returned a)
  | Throw e => ([], Raised e)
  | Ddgs_text q m k =>
      let o := w_ddgs_text w past q m in
      let ev := Ev_ddgs_text q m o in
      let r := run_from w (past ++ [ev]) (k o) in
      (ev :: fst r, snd r)
  | Requests_post req k =>
      let o := w_requests_post w past req in
      let ev := Ev_requests_post req o in
      let r := run_from w (past ++ [ev]) (k o) in
      (ev :: fst r, snd r)
  | Datetime_now k =>
      let t := w_datetime_now w past in
      let ev := Ev_datetime_now t in
      let r := run_from w (past ++ [ev]) (k t) in
      (ev :: fst r, snd r)
  end.

(** The calls made, in order, and how the program ended. *)
Definition run {A : Type} (w : world) (p : prog A) : list event * outcome A :=
  run_from w [] p.

Definition is_search (ev : event) : bool :=
  match ev with Ev_ddgs_text _ _ _ => true | _ => false end.
Definition is_completion (ev : event) : bool :=
  match ev with Ev_requests_post _ _ => true | _ => false end.

(* ================================================================== *)
(** ** Configuration read at import time *)

(** The [search_settings] dict of search_config.json; a key may be missing. *)
Record search_settings := SearchSettings {
  max_results_setting : option Z;
  summary_length_setting : option Z
}.

Record config := Config {
  OPENROUTER_API_KEY : option str;     (* os.environ.get: None when unset *)
  OPENROUTER_MODEL : option str;
  SEARCH_CONFIG : option search_settings  (* SEARCH_CONFIG.get('search_settings') *)
}.

(** What [load_search_config] returns when the file cannot be read. *)
Definition load_search_config_default : option search_settings :=
  Some (SearchSettings (Some 3%Z) (Some 200%Z)).

(* ================================================================== *)
(** ** String constants of the program *)

Definition nl : str := [10%N].
Definition dq : str := [34%N].

Definition greeting_text : str :=
  lit "Hello! How can I help you today? I can search the web for current information or answer general questions!".

Definition bullet : str := [0xE2; 0x20AC; 0xA2]%N.

Definition help_text : str :=
  lit "I'm a LINE bot with AI and web search capabilities!" ++ nl ++ nl
  ++ bullet ++ lit " Ask me anything and I'll decide if I need to search for current information" ++ nl
  ++ bullet ++ lit " Say 'search [query]' for direct web search" ++ nl
  ++ bullet ++ lit " I can help with current events, weather, news, tech updates, and more!".

Definition no_relevant_text : str :=
  lit "Sorry, I couldn't find any relevant information.".

Definition technical_issues_text (user_message : str) : str :=
  lit "I received your message: " ++ user_message ++ nl
  ++ lit "I'm experiencing some technical issues. Please try again later.".

Definition no_results_text (query : str) : str :=
  lit "I couldn't find any results for '" ++ query
  ++ lit "'. Try a different search term!".

Definition search_error_text (query : str) : str :=
  lit "Sorry, I encountered an error while searching for '" ++ query
  ++ lit "'. Please try again later.".

Definition results_header (query : str) : str :=
  [0xF0; 0x178; 0x201D]%N ++ lit " Search results for '" ++ query
  ++ lit "':" ++ nl.

Definition truncation_hint : str :=
  lit "..." ++ nl ++ nl ++ [0xF0; 0x178; 0x2019; 0xA1]%N
  ++ lit " Try more specific search terms for better results!".

Definition arrow : str := [0xE2; 0x2020; 0x2019]%N.

Definition analyze_system_prompt : str :=
  join nl
   [ lit "You are an AI assistant that analyzes user questions to determine if they need web search for current information.";
     [];
     lit "Analyze the user's question and determine if it requires recent/current information that would benefit from web search.";
     [];
     lit "Questions that NEED web search:";
     lit "- Current events, news, weather";
     lit "- Recent developments, latest updates";
     lit "- Current prices, stock market, live data";
     lit "- Recent sports scores, match results";
     lit "- Today's/recent information about anything";
     lit "- Breaking news or trending topics";
     [];
     lit "Questions that DON'T NEED web search:";
     lit "- General knowledge questions";
     lit "- Definitions, explanations of concepts";
     lit "- Historical facts (unless asking for recent updates)";
     lit "- Math calculations";
     lit "- Personal advice or opinions";
     lit "- Simple greetings, casual conversation";
     [];
     lit "Respond with one of these tags:";
     lit "- <search>YES</search> if web search is needed";
     lit "- <search>NO</search> if web search is not needed";
     [];
     lit "After the tag, briefly explain your reasoning and if search is needed, suggest a good search query.";
     [];
     lit "Examples:";
     lit "- " ++ dq ++ lit "What's the weather today?" ++ dq ++ lit " " ++ arrow
       ++ lit " <search>YES</search> Need current weather data. Search: "
       ++ dq ++ lit "weather today" ++ dq;
     lit "- " ++ dq ++ lit "What is Python programming?" ++ dq ++ lit " " ++ arrow
       ++ lit " <search>NO</search> General knowledge question about programming.";
     lit "- " ++ dq ++ lit "Latest AI news" ++ dq ++ lit " " ++ arrow
       ++ lit " <search>YES</search> Need current AI developments. Search: "
       ++ dq ++ lit "latest AI news 2025" ++ dq;
     lit "- " ++ dq ++ lit "How are you?" ++ dq ++ lit " " ++ arrow
       ++ lit " <search>NO</search> Casual greeting, no search needed." ].

Definition contextual_system_prompt : str :=
  join nl
   [ lit "You are a helpful LINE bot assistant. The user asked a question and I've gathered some recent web search results for you.";
     [];
     lit "Use the search results to provide a helpful, accurate, and concise answer to the user's question. ";
     lit "Keep your response under 300 characters when possible.";
     lit "If the search results don't fully answer the question, acknowledge what you found and suggest they search for more specific terms." ].

Definition context_message (user_message search_results : str) : str :=
  lit "User question: " ++ user_message ++ nl ++ nl
  ++ lit "Search results:" ++ nl ++ search_results ++ nl ++ nl
  ++ lit "Please provide a helpful response based on this information.".

Definition direct_system_prompt : str :=
  join nl
   [ lit "You are a helpful and friendly LINE bot assistant. ";
     lit "    Keep your responses concise (under 200 characters when possible) and engaging.";
     lit "    Be helpful, informative, and maintain a conversational tone.";
     lit "    If you don't know something, admit it honestly." ].

(* ================================================================== *)
(** ** Patterns of the program *)

Local Open Scope N_scope.

(** [\s+] *)
Definition re_spaces : Re.pattern := [Re.Piece is_space Re.Plus false].

(** [&[a-zA-Z0-9#]+;] *)
Definition entity_class (c : char) : bool :=
  Re.in_range 97 122 c || Re.in_range 65 90 c || Re.in_range 48 57 c
  || Re.chr 35 c.
(* a-z, A-Z, 0-9 and the hash sign *)
Definition re_entity : Re.pattern :=
  [Re.Piece (Re.chr 38) Re.One false;
   Re.Piece entity_class Re.Plus false;
   Re.Piece (Re.chr 59) Re.One false].

(** [<[^>]+>] *)
Definition re_tag : Re.pattern :=
  [Re.Piece (Re.chr 60) Re.One false;
   Re.Piece (Re.not_in [62%N]) Re.Plus false;
   Re.Piece (Re.chr 62) Re.One false].

(** [<search>YES</search>] with [re.IGNORECASE] *)
Definition re_yes_tag : Re.pattern := Re.text_i "<search>YES</search>".

(** [Search:\s*Q?([^Q.\n]+)Q?] with [re.IGNORECASE], where Q stands for the
    class of the double and the single quote. *)
Definition quote_class (c : char) : bool := Re.chr 34%N c || Re.chr 39%N c.
Definition query_class : char -> bool := Re.not_in [34; 39; 46; 10]%N.
Definition re_suggested_query : Re.pattern :=
  Re.text_i "Search:"
  ++ [Re.Piece is_space Re.Star false;
      Re.Piece quote_class Re.Opt false;
      Re.Piece query_class Re.Plus true;
      Re.Piece quote_class Re.Opt false].

Local Close Scope N_scope.

(* ================================================================== *)
(** ** The program *)

(** [clean_text(text)] *)
Definition clean_text (text : option str) : str :=
  match text with
  | None => []
  | Some [] => []
  | Some text =>
      let text := Re.sub re_spaces (lit " ") (strip text) in
      let text := Re.sub re_entity [] text in
      let text := Re.sub re_tag [] text in
      text
  end.

(** [dict.get(key, default)] on a key that may be missing. *)
Definition get {A : Type} (field : option A) (default : A) : A :=
  match field with
  | Some v => v
  | None => default
  end.

(** [should_search(analysis_response)] *)
Definition should_search (analysis_response : option str) : bool :=
  if negb (truthy analysis_response) then false
  else
    match Re.search re_yes_tag (get analysis_response []) with
    | Some _ => true
    | None => false
    end.

(** [extract_search_query(analysis_response, user_message)] *)
Definition extract_search_query (analysis_response : option str)
    (user_message : str) : str :=
  if negb (truthy analysis_response) then user_message
  else
    match Re.search re_suggested_query (get analysis_response []) with
    | Some group1 =>
        let suggested_query := strip group1 in
        if truthy (Some suggested_query) then suggested_query
        else user_message
    | None => user_message
    end.

Section Program.

(** [str.lower] of the interpreter, in full Unicode; [ascii_lower] is its
    restriction to ASCII text. *)
Variable lower : str -> str.

(** The module-level globals. *)
Variable cfg : config.

(** One entry of the rendering: [f"{i}. {title}\n{snippet}...\n"]. *)
Definition format_hit (summary_length : Z) (i : nat) (result : hit) : str :=
  let title := firstn 80 (get (title result) (lit "No title")) in
  let snippet :=
    slice_to summary_length (get (body result) (lit "No description")) in
  let snippet := clean_text (Some snippet) in
  str_of_nat i ++ lit ". " ++ title ++ nl ++ snippet ++ lit "..." ++ nl.

(** The loop over [enumerate(results, i)]. *)
Fixpoint format_hits (summary_length : Z) (i : nat) (results : list hit)
  : list str :=
  match results with
  | [] => []
  | result :: rest =>
      format_hit summary_length i result
      :: format_hits summary_length (S i) rest
  end.

(** The text before the cap of 1800 characters is applied. *)
Definition raw_rendering (max_results summary_length : Z) (query : str)
    (results : list hit) : str :=
  join nl (results_header query
           :: format_hits summary_length 1 (slice_to max_results results)).

(** [response[:1800] + hint] when [len(response) > 1800]. *)
Definition cap_response (response : str) : str :=
  if (1800 <? length response)%nat
  then firstn 1800 response ++ truncation_hint
  else response.

(** [perform_search(query)] *)
Definition perform_search (query : str) : prog str :=
  try_except
    (let settings := get (SEARCH_CONFIG cfg) (SearchSettings None None) in
     let max_results := get (max_results_setting settings) 3%Z in
     let summary_length := get (summary_length_setting settings) 300%Z in
     results <- ddgs_text query max_results ;;
     match results with
     | [] => Ret (no_results_text query)
     | _ :: _ =>
         Ret (cap_response
                (raw_rendering max_results summary_length query results))
     end)
    (fun e => Ret (search_error_text query)).

(** [call_openrouter_api(system_prompt, user_message, max_tokens)] *)
Definition call_openrouter_api (system_prompt user_message : str)
    (max_tokens : Z) : prog (option str) :=
  if negb (truthy (OPENROUTER_API_KEY cfg)) then Ret None
  else
    response <- requests_post
      (CompletionRequest (OPENROUTER_API_KEY cfg) (OPENROUTER_MODEL cfg)
         system_prompt user_message max_tokens 7) ;;
    if negb (status_ok response) then Throw HTTPError
    else
      match reply response with
      | NotJson => Throw JSONDecodeError
      | NoContent => Throw LookupError
      | Content text => Ret (Some (strip text))
      end.

(** [analyze_search_need(user_message)] *)
Definition analyze_search_need (user_message : str) : prog (option str) :=
  call_openrouter_api analyze_system_prompt user_message 100.

(** [generate_contextual_response(user_message, search_results)] *)
Definition generate_contextual_response (user_message search_results : str)
  : prog (option str) :=
  response <- call_openrouter_api contextual_system_prompt
                (context_message user_message search_results) 200 ;;
  Ret (if truthy response then response else Some search_results).

(** [generate_ai_response_http(user_message)] *)
Definition generate_ai_response_http (user_message : str)
  : prog (option str) :=
  if negb (truthy (OPENROUTER_API_KEY cfg)) then Ret None
  else
    ai_message <- call_openrouter_api direct_system_prompt user_message 150 ;;
    Ret ai_message.

(** The last statement of [generate_response]. *)
Definition final_fallback (user_message : str) : prog (option str) :=
  Ret (Some (technical_issues_text user_message)).

(** [search_results and not search_results.startswith("I couldn't find")] *)
Definition usable_results (search_results : str) : bool :=
  truthy (Some search_results)
  && negb (startswith (lit "I couldn't find") search_results).

(** [generate_response(user_message)].  Every path of the body under
    [if OPENROUTER_API_KEY:] returns, so the last statement runs only when
    that test fails. *)
Definition generate_response (user_message : str) : prog (option str) :=
  let user_message_lower := lower user_message in
  if contains (lit "hello") user_message_lower
     || contains (lit "hi") user_message_lower
  then Ret (Some greeting_text)
  else if contains (lit "help") user_message_lower
  then Ret (Some help_text)
  else if contains (lit "time") user_message_lower
  then current_time <- datetime_now ;;
       Ret (Some (lit "Current time: " ++ current_time))
  else if startswith (lit "search ") user_message_lower
  then
    let query := strip (skipn 7 user_message) in
    search_results <- perform_search query ;;
    if usable_results search_results
    then generate_contextual_response user_message search_results
    else Ret (Some (if truthy (Some search_results) then search_results
                    else no_relevant_text))
  else if truthy (OPENROUTER_API_KEY cfg)
  then
    try_except
      (search_decision <- analyze_search_need user_message ;;
       if should_search search_decision
       then
         let search_query :=
           extract_search_query search_decision user_message in
         search_results <- perform_search search_query ;;
         if usable_results search_results
         then generate_contextual_response user_message search_results
         else generate_ai_response_http user_message
       else generate_ai_response_http user_message)
      (fun e =>
         if truthy (OPENROUTER_API_KEY cfg)
         then generate_ai_response_http user_message
         else final_fallback user_message)
  else final_fallback user_message.

End Program.

(* ================================================================== *)
(** ** Derived notions used in the statements *)

(** The credentials test [if OPENROUTER_API_KEY:]. *)
Definition has_api_key (cfg : config) : bool :=
  truthy (OPENROUTER_API_KEY cfg).

(** The message triggers one of the canned replies (greeting, help, time). *)
Definition is_canned (lower : str -> str) (user_message : str) : bool :=
  contains (lit "hello") (lower user_message)
  || contains (lit "hi") (lower user_message)
  || contains (lit "help") (lower user_message)
  || contains (lit "time") (lower user_message).

(** The settings [perform_search] reads. *)
Definition max_results_of (cfg : config) : Z :=
  get (max_results_setting (get (SEARCH_CONFIG cfg) (SearchSettings None None))) 3%Z.
Definition summary_length_of (cfg : config) : Z :=
  get (summary_length_setting (get (SEARCH_CONFIG cfg) (SearchSettings None None))) 300%Z.

(** What [perform_search] returns for each outcome of the backend call. *)
Definition search_text (cfg : config) (query : str)
    (o : outcome (list hit)) : str :=
  match o with
  | Returned [] => no_results_text query
  | Returned results =>
      cap_response
        (raw_rendering (max_results_of cfg) (summary_length_of cfg)
           query results)
  | Raised _ => search_error_text query
  end.

(** The request [analyze_search_need] sends. *)
Definition classify_request (cfg : config) (user_message : str)
  : completion_request :=
  CompletionRequest (OPENROUTER_API_KEY cfg) (OPENROUTER_MODEL cfg)
    analyze_system_prompt user_message 100 7.

(** The text [call_openrouter_api] returns on a reply, if it returns. *)
Definition completion_text (o : outcome http_response) : outcome (option str) :=
  match o with
  | Raised e => Raised e
  | Returned response =>
      if negb (status_ok response) then Raised HTTPError
      else
        match reply response with
        | NotJson => Raised JSONDecodeError
        | NoContent => Raised LookupError
        | Content text => Returned (Some (strip text))
        end
  end.

(** Case-insensitive comparison and search as the spec words them:
    [needle] occurs in [hay] up to the case folding of [re]. *)
Fixpoint startswith_i (p s : str) : bool :=
  match p, s with
  | [], _ => true
  | _ :: _, [] => false
  | a :: p', b :: s' => Re.chr_i a b && startswith_i p' s'
  end.

Fixpoint contains_i (needle hay : str) : bool :=
  startswith_i needle hay ||
  match hay with
  | [] => false
  | _ :: hay' => contains_i needle hay'
  end.

(** The requests of [generate_contextual_response] and of
    [generate_ai_response_http]. *)
Definition contextual_request (cfg : config)
    (user_message search_results : str)
  : completion_request :=
  CompletionRequest (OPENROUTER_API_KEY cfg) (OPENROUTER_MODEL cfg)
    contextual_system_prompt (context_message user_message search_results)
    200 7.

Definition direct_request (cfg : config) (user_message : str)
  : completion_request :=
  CompletionRequest (OPENROUTER_API_KEY cfg) (OPENROUTER_MODEL cfg)
    direct_system_prompt user_message 150 7.

(** What the body of the [try] does once the classifier has answered with
    [search_decision]. *)
Definition after_classification (cfg : config) (user_message : str)
    (search_decision : option str) : prog (option str) :=
  if should_search search_decision
  then
    search_results <-
      perform_search cfg (extract_search_query search_decision user_message) ;;
    if usable_results search_results
    then generate_contextual_response cfg user_message search_results
    else generate_ai_response_http cfg user_message
  else generate_ai_response_http cfg user_message.

(** The first step of [clean_text]. *)
Definition normalize_spaces (text : str) : str :=
  Re.sub re_spaces (lit " ") (strip text).

(** Runs of whitespace become one space; [in_run] tells that the previous
    character was whitespace. *)
Fixpoint collapse (in_run : bool) (s : str) : str :=
  match s with
  | [] => []
  | c :: s' =>
      if is_space c
      then if in_run then collapse true s' else 32%N :: collapse true s'
      else c :: collapse false s'
  end.

(** Number of whitespace characters [s] begins with. *)
Fixpoint leading_spaces (s : str) : nat :=
  match s with
  | c :: s' => if is_space c then S (leading_spaces s') else 0
  | [] => 0
  end.

Definition head_ok (s : str) : Prop :=
  match s with
  | c :: _ => is_space c = false
  | [] => True
  end.


(* ================================================================== *)
(** ** Concrete configurations and worlds *)

Module Examples.

(** Credentials set, search settings as [load_search_config] defaults. *)
Definition cfg_key : config :=
  Config (Some (lit "sk-test")) (Some (lit "some/model"))
    load_search_config_default.

(** No credentials. *)
Definition cfg_no_key : config :=
  Config None None load_search_config_default.

Definition one_hit : hit :=
  Hit (Some (lit "Cats")) (Some (lit "Cats are small  animals.")) (Some (lit "https://example.org")).

Definition clock : list event -> str := fun _ => lit "2025-01-01 12:00:00".

Definition ok_reply (text : str) : outcome http_response :=
  Returned (HttpResponse true (Content text)).

(** The backend finds one page; the completion endpoint is unreachable. *)
Definition world_no_completion : world :=
  World (fun _ _ _ => Returned [one_hit])
        (fun _ _ => Raised ConnectionError)
        clock.

(** The backend finds nothing; the completion endpoint is unreachable. *)
Definition world_no_results : world :=
  World (fun _ _ _ => Returned [])
        (fun _ _ => Raised ConnectionError)
        clock.

(** Every completion is the given text; the backend finds one page. *)
Definition world_replying (text : str) : world :=
  World (fun _ _ _ => Returned [one_hit])
        (fun _ _ => ok_reply text)
        clock.

(** The first completion (the classification) is [first], every later one
    is [later]; the backend answers [found]. *)
Definition world_classifying (first later : outcome http_response)
    (found : outcome (list hit)) : world :=
  World (fun _ _ _ => found)
        (fun past _ => match past with [] => first | _ :: _ => later end)
        clock.

End Examples.

(* ================================================================== *)
(** ** The webhook layer: configuration, events and calls *)

(** A key of a JSON object: absent, [null], or holding a value. *)
Inductive field (A : Type) : Type :=
| Missing
| Null
| Present (a : A).
Arguments Missing {A}.
Arguments Null {A}.

(** [d.get(key, default)] as a Python value ([None] for a JSON null). *)
Definition get_or {A : Type} (f : field A) (default : A) : option A :=
  match f with
  | Missing => Some default
  | Null => None
  | Present a => Some a
  end.

(** [headers.get(key)] on a dict given by its items (keys distinct). *)
Fixpoint lookup (key : str) (items : list (str * str)) : option str :=
  match items with
  | [] => None
  | (k, v) :: rest => if eqb_str k key then Some v else lookup key rest
  end.

(** What [load_search_config] returns, from the outcome of reading and
    parsing search_config.json (its [search_settings] entry). *)
Definition load_search_config (file : outcome (option search_settings))
  : option search_settings :=
  match file with
  | Returned parsed => parsed
  | Raised _ => load_search_config_default
  end.

Record line_config := LineConfig {
  CHANNEL_ACCESS_TOKEN : option str;
  CHANNEL_SECRET : option str;
  ENABLE_SIGNATURE_VALIDATION : bool
}.

(** The API Gateway event [lambda_handler] receives. *)
Record gateway_event := GatewayEvent {
  httpMethod : field str;
  path : field str;
  event_body : field str;
  headers : field (list (str * str))
}.

(** The dict [lambda_handler] returns; [response_body] is the text
    [json.dumps] gives. *)
Record gateway_response := GatewayResponse {
  statusCode : Z;
  response_body : str
}.

(** The message event the LINE SDK hands to [handle_text_message]. *)
Record message_event := MessageEvent {
  message_text : str;
  user_id : option str;
  reply_token : str
}.

Inductive line_exn :=
| PipelineError (e : exn)      (* an exception that left generate_response *)
| LineBotApiError
| InvalidSignatureError
| AttributeError               (* headers.get on None *)
| OtherError.

Inductive result (T : Type) : Type :=
| Done (t : T)
| Failed (e : line_exn).
Arguments Failed {T} e.

(** Programs of the webhook layer: a call into the reply pipeline, a reply
    through the LINE API, the SDK's [handler.handle]. *)
Inductive webhook (A : Type) : Type :=
| WRet (a : A)
| WThrow (e : line_exn)
| Generate (p : prog (option str)) (k : outcome (option str) -> webhook A)
| Reply_message (token : str) (text : option str)
    (k : result unit -> webhook A)
| Handler_handle (body signature : option str)
    (k : result unit -> webhook A).
Arguments WThrow {A} e.

Fixpoint wbind {A B : Type} (p : webhook A) (f : A -> webhook B)
  : webhook B :=
  match p with
  | WRet a => f a
  | WThrow e => WThrow e
  | Generate q k => Generate q (fun o => wbind (k o) f)
  | Reply_message t x k => Reply_message t x (fun o => wbind (k o) f)
  | Handler_handle b s k => Handler_handle b s (fun o => wbind (k o) f)
  end.

(** [try: p  except Exception as e: h e] at the webhook layer. *)
Fixpoint wtry {A : Type} (p : webhook A) (h : line_exn -> webhook A)
  : webhook A :=
  match p with
  | WRet a => WRet a
  | WThrow e => h e
  | Generate q k => Generate q (fun o => wtry (k o) h)
  | Reply_message t x k => Reply_message t x (fun o => wtry (k o) h)
  | Handler_handle b s k => Handler_handle b s (fun o => wtry (k o) h)
  end.

Definition of_result {A : Type} (o : result A) : webhook A :=
  match o with
  | Done a => WRet a
  | Failed e => WThrow e
  end.

(** A call of a pipeline function; its exception, if any, goes on. *)
Definition generate (p : prog (option str)) : webhook (option str) :=
  Generate p (fun o => match o with
                       | Returned v => WRet v
                       | Raised e => WThrow (PipelineError e)
                       end).
Definition reply_message (token : str) (text : option str) : webhook unit :=
  Reply_message token text of_result.
Definition handler_handle (body signature : option str) : webhook unit :=
  Handler_handle body signature of_result.

Inductive line_event :=
| In_pipeline (ev : event)
| Ev_reply_message (token : str) (text : option str) (o : result unit)
| Ev_handler_handle (body signature : option str) (o : result unit).

Definition pipeline_event (ev : line_event) : list event :=
  match ev with
  | In_pipeline e => [e]
  | _ => []
  end.

Record line_world := LineWorld {
  lw_world : world;
  lw_reply_message : list line_event -> str -> option str -> result unit;
  lw_handler_handle :
    list line_event -> option str -> option str -> result unit
}.

Fixpoint wrun_from {A : Type} (lw : line_world) (past : list line_event)
    (p : webhook A) : list line_event * result A :=
  match p with
  | WRet a => ([], Done a)
  | WThrow e => ([], Failed e)
  | Generate q k =>
      let inner := run_from (lw_world lw) (flat_map pipeline_event past) q in
      let evs := List.map In_pipeline (fst inner) in
      let r := wrun_from lw (past ++ evs) (k (snd inner)) in
      (evs ++ fst r, snd r)
  | Reply_message t x k =>
      let o := lw_reply_message lw past t x in
      let ev := Ev_reply_message t x o in
      let r := wrun_from lw (past ++ [ev]) (k o) in
      (ev :: fst r, snd r)
  | Handler_handle b s k =>
      let o := lw_handler_handle lw past b s in
      let ev := Ev_handler_handle b s o in
      let r := wrun_from lw (past ++ [ev]) (k o) in
      (ev :: fst r, snd r)
  end.

Definition wrun {A : Type} (lw : line_world) (p : webhook A)
  : list line_event * result A :=
  wrun_from lw [] p.

Definition is_reply (ev : line_event) : bool :=
  match ev with Ev_reply_message _ _ _ => true | _ => false end.
Definition is_handle (ev : line_event) : bool :=
  match ev with Ev_handler_handle _ _ _ => true | _ => false end.

(** *** Texts of the webhook layer *)

Definition apology_text : str :=
  lit "Sorry, I encountered an error. Please try again.".

(** [json.dumps] of the four one-level dicts of the program. *)
Definition json_pair (key value : string) : str :=
  dq ++ lit key ++ dq ++ lit ": " ++ dq ++ lit value ++ dq.

Definition health_check : gateway_response :=
  GatewayResponse 200
    (lit "{" ++ json_pair "status" "healthy" ++ lit ", "
     ++ json_pair "service" "LINE Bot" ++ lit "}").

Definition ok_response : gateway_response :=
  GatewayResponse 200 (lit "{" ++ json_pair "message" "OK" ++ lit "}").
Definition invalid_signature_response : gateway_response :=
  GatewayResponse 403
    (lit "{" ++ json_pair "error" "Invalid signature" ++ lit "}").
Definition line_api_error_response : gateway_response :=
  GatewayResponse 500
    (lit "{" ++ json_pair "error" "LINE Bot API error" ++ lit "}").
Definition internal_error_response : gateway_response :=
  GatewayResponse 500
    (lit "{" ++ json_pair "error" "Internal server error" ++ lit "}").

(** *** The functions of the webhook layer *)

Definition is_ascii (s : str) : bool := forallb (fun c => (c <? 128)%N) s.

(** [hmac.compare_digest] on two [str]: a [TypeError] ([None]) unless both
    are ASCII. *)
Definition compare_digest (a b : str) : option bool :=
  if is_ascii a && is_ascii b then Some (eqb_str a b) else None.

(** [http_method == 'GET' and path == '/health'], both read with
    [event.get(key, '')]. *)
Definition is_health_request (event : gateway_event) : bool :=
  let http_method := get_or (httpMethod event) [] in
  let path := get_or (path event) [] in
  match http_method, path with
  | Some m, Some p => eqb_str m (lit "GET") && eqb_str p (lit "/health")
  | _, _ => false
  end.

Section Webhook.

(** [s.encode('utf-8')], [None] when it raises; and
    [base64.b64encode(hmac.new(key, msg, hashlib.sha256).digest()).decode('utf-8')]. *)
Variable encode_utf8 : str -> option (list N).
Variable hmac_sha256_base64 : list N -> list N -> str.

Variable lc : line_config.

(** [validate_signature(body, signature)] *)
Definition validate_signature (body signature : option str) : bool :=
  if negb (truthy (CHANNEL_SECRET lc)) || negb (truthy signature) then false
  else
    match match body with
          | Some text => encode_utf8 text
          | None => Some []
          end with
    | None => false
    | Some body_bytes =>
        match encode_utf8 (get (CHANNEL_SECRET lc) []) with
        | None => false
        | Some key =>
            let expected_signature := hmac_sha256_base64 key body_bytes in
            match compare_digest (get signature []) expected_signature with
            | Some is_valid => is_valid
            | None => false
            end
        end
    end.

(** [headers.get('X-Line-Signature') or headers.get('x-line-signature', '')] *)
Definition signature_header (items : list (str * str)) : option str :=
  if truthy (lookup (lit "X-Line-Signature") items)
  then lookup (lit "X-Line-Signature") items
  else Some (get (lookup (lit "x-line-signature") items) []).

(** [lambda_handler(event, context)] *)
Definition lambda_handler (event : gateway_event) : webhook gateway_response :=
  wtry
    (if is_health_request event
     then WRet health_check
     else
       let body := get_or (event_body event) [] in
       match get_or (headers event) [] with
       | None => WThrow AttributeError
       | Some items =>
           let signature := signature_header items in
           if ENABLE_SIGNATURE_VALIDATION lc
              && negb (validate_signature body signature)
           then WRet invalid_signature_response
           else
             wbind (handler_handle body signature)
               (fun _ => WRet ok_response)
       end)
    (fun e =>
       match e with
       | InvalidSignatureError => WRet invalid_signature_response
       | LineBotApiError => WRet line_api_error_response
       | _ => WRet internal_error_response
       end).

Variable lower : str -> str.
Variable cfg : config.

(** [handle_text_message(event)]; [line_bot_api] is set exactly when
    CHANNEL_ACCESS_TOKEN is. *)
Definition handle_text_message (event : message_event) : webhook unit :=
  wtry
    (let user_message := message_text event in
     if negb (truthy (CHANNEL_ACCESS_TOKEN lc)) then WRet tt
     else
       wbind (generate (generate_response lower cfg user_message))
         (fun response_message =>
            reply_message (reply_token event) response_message))
    (fun e =>
       if truthy (CHANNEL_ACCESS_TOKEN lc)
       then wtry (reply_message (reply_token event) (Some apology_text))
                 (fun reply_error => WRet tt)
       else WRet tt).

End Webhook.

(* ================================================================== *)
(** ** Concrete webhook configurations, events and worlds *)

Module WebhookExamples.

(** [encode('utf-8')] on ASCII text; other text is refused here. *)
Definition ascii_encode (s : str) : option (list N) :=
  if is_ascii s then Some s else None.

(** A stand-in for the base64 HMAC, for running the model. *)
Definition toy_mac (key msg : list N) : str :=
  lit "mac" ++ str_of_nat (length key + length msg).

Definition lc_validating : line_config :=
  LineConfig (Some (lit "token")) (Some (lit "secret")) true.
Definition lc_no_secret : line_config :=
  LineConfig (Some (lit "token")) None true.
Definition lc_not_validating : line_config :=
  LineConfig (Some (lit "token")) (Some (lit "secret")) false.
Definition lc_no_token : line_config :=
  LineConfig None (Some (lit "secret")) true.

Definition health_event : gateway_event :=
  GatewayEvent (Present (lit "GET")) (Present (lit "/health")) Null Null.

Definition post_event (items : field (list (str * str))) : gateway_event :=
  GatewayEvent (Present (lit "POST")) (Present (lit "/webhook"))
    (Present (lit "{}")) items.

Definition text_event (text : str) : message_event :=
  MessageEvent text (Some (lit "U1")) (lit "reply-token").

(** The SDK and the LINE API answer normally. *)
Definition line_world_ok (w : world) : line_world :=
  LineWorld w (fun _ _ _ => Done tt) (fun _ _ _ => Done tt).

(** The LINE API refuses every reply; the SDK reports a LINE API error. *)
Definition line_world_failing (w : world) : line_world :=
  LineWorld w (fun _ _ _ => Failed LineBotApiError)
    (fun _ _ _ => Failed LineBotApiError).

End WebhookExamples.

Arguments lit : simpl never.
Arguments greeting_text : simpl never.
Arguments help_text : simpl never.
Arguments no_relevant_text : simpl never.
Arguments technical_issues_text : simpl never.
Arguments no_results_text : simpl never.
Arguments search_error_text : simpl never.
Arguments results_header : simpl never.
Arguments truncation_hint : simpl never.
Arguments analyze_system_prompt : simpl never.
Arguments contextual_system_prompt : simpl never.
Arguments direct_system_prompt : simpl never.
Arguments context_message : simpl never.
Arguments clean_text : simpl never.
Arguments cap_response : simpl never.
Arguments raw_rendering : simpl never.
Arguments should_search : simpl never.
Arguments extract_search_query : simpl never.
Arguments usable_results : simpl never.
Arguments strip : simpl never.
Arguments contains : simpl never.
Arguments startswith : simpl never.

(* ================================================================== *)
(** ** Running composed programs *)

Section RunLaws.

Variable w : world.

Lemma run_from_bind {A B : Type} (p : prog A) (f : A -> prog B) :
  forall past,
    run_from w past (bind p f) =
    match snd (run_from w past p) with
    | Returned a =>
        (fst (run_from w past p)
           ++ fst (run_from w (past ++ fst (run_from w past p)) (f a)),
         snd (run_from w (past ++ fst (run_from w past p)) (f a)))
    | Raised e => (fst (run_from w past p), Raised e)
    end.
Proof.
  induction p as [a|e|q m k IH|r k IH|k IH]; intros past; simpl.
  - rewrite app_nil_r. now destruct (run_from w past (f a)).
  - reflexivity.
  - rewrite IH. destruct (snd (run_from w _ (k _))); simpl; [|reflexivity].
    now rewrite <- app_assoc.
  - rewrite IH. destruct (snd (run_from w _ (k _))); simpl; [|reflexivity].
    now rewrite <- app_assoc.
  - rewrite IH. destruct (snd (run_from w _ (k _))); simpl; [|reflexivity].
    now rewrite <- app_assoc.
Qed.

Lemma run_from_try_except {A : Type} (p : prog A) (h : exn -> prog A) :
  forall past,
    run_from w past (try_except p h) =
    match snd (run_from w past p) with
    | Returned a => (fst (run_from w past p), Returned a)
    | Raised e =>
        (fst (run_from w past p)
           ++ fst (run_from w (past ++ fst (run_from w past p)) (h e)),
         snd (run_from w (past ++ fst (run_from w past p)) (h e)))
    end.
Proof.
  induction p as [a|e|q m k IH|r k IH|k IH]; intros past; simpl.
  - reflexivity.
  - rewrite app_nil_r. now destruct (run_from w past (h e)).
  - rewrite IH. destruct (snd (run_from w _ (k _))); simpl; [reflexivity|].
    now rewrite <- app_assoc.
  - rewrite IH. destruct (snd (run_from w _ (k _))); simpl; [reflexivity|].
    now rewrite <- app_assoc.
  - rewrite IH. destruct (snd (run_from w _ (k _))); simpl; [reflexivity|].
    now rewrite <- app_assoc.
Qed.

Variable cfg : config.

(** [perform_search] makes exactly one backend call and always returns. *)
Lemma run_perform_search (query : str) (past : list event) :
  run_from w past (perform_search cfg query) =
  let o := w_ddgs_text w past query (max_results_of cfg) in
  ([Ev_ddgs_text query (max_results_of cfg) o],
   Returned (search_text cfg query o)).
Proof.
  unfold perform_search, max_results_of, summary_length_of, search_text.
  simpl.
  destruct (w_ddgs_text w past query _) as [[|r rs]|e]; reflexivity.
Qed.

(** [call_openrouter_api]: no call without credentials, one call with. *)
Lemma run_call_openrouter_api (system_prompt user_message : str)
    (max_tokens : Z) (past : list event) :
  run_from w past (call_openrouter_api cfg system_prompt user_message max_tokens) =
  if has_api_key cfg then
    let req := CompletionRequest (OPENROUTER_API_KEY cfg) (OPENROUTER_MODEL cfg)
                 system_prompt user_message max_tokens 7 in
    let o := w_requests_post w past req in
    ([Ev_requests_post req o], completion_text o)
  else ([], Returned None).
Proof.
  unfold call_openrouter_api, has_api_key.
  destruct (truthy (OPENROUTER_API_KEY cfg)); simpl; [|reflexivity].
  destruct (w_requests_post w past _) as [[[|] [| |text]]|e]; reflexivity.
Qed.

End RunLaws.

(* ================================================================== *)
(** ** Facts about the texts [perform_search] returns *)

Lemma usable_no_results (query : str) :
  usable_results (no_results_text query) = false.
Proof. reflexivity. Qed.

Lemma usable_search_error (query : str) :
  usable_results (search_error_text query) = true.
Proof. reflexivity. Qed.

Lemma raw_rendering_head (m sl : Z) (query : str) (results : list hit) :
  exists rest, raw_rendering m sl query results = 0xF0%N :: rest.
Proof.
  unfold raw_rendering.
  destruct (format_hits sl 1 (slice_to m results)) as [|p ps];
    eexists; reflexivity.
Qed.

Lemma usable_cap_response (m sl : Z) (query : str) (results : list hit) :
  usable_results (cap_response (raw_rendering m sl query results)) = true.
Proof.
  destruct (raw_rendering_head m sl query results) as [rest ->].
  unfold cap_response.
  match goal with |- context [if ?b then _ else _] => destruct b end;
    reflexivity.
Qed.

Lemma truthy_search_text (cfg : config) (query : str) (o : outcome (list hit)) :
  truthy (Some (search_text cfg query o)) = true.
Proof.
  destruct o as [[|r rs]|e]; try reflexivity.
  unfold search_text.
  pose proof (usable_cap_response (max_results_of cfg) (summary_length_of cfg)
                query (r :: rs)) as H.
  unfold usable_results in H. now apply andb_true_iff in H.
Qed.

(** Only a non-empty result list and a backend failure give a text that
    [generate_response] hands to contextual composition. *)
Lemma usable_search_text (cfg : config) (query : str) (o : outcome (list hit)) :
  usable_results (search_text cfg query o) =
  match o with
  | Returned [] => false
  | _ => true
  end.
Proof.
  destruct o as [[|r rs]|e].
  - apply usable_no_results.
  - apply usable_cap_response.
  - apply usable_search_error.
Qed.

(* ================================================================== *)
(** ** Running the completion helpers *)

Section RunHelpers.

Variable w : world.
Variable cfg : config.


Lemma run_generate_contextual_response (user_message search_results : str)
    (past : list event) :
  run_from w past (generate_contextual_response cfg user_message search_results) =
  if has_api_key cfg then
    let req := contextual_request cfg user_message search_results in
    let o := w_requests_post w past req in
    ([Ev_requests_post req o],
     match completion_text o with
     | Returned response =>
         Returned (if truthy response then response else Some search_results)
     | Raised e => Raised e
     end)
  else ([], Returned (Some search_results)).
Proof.
  unfold generate_contextual_response.
  rewrite run_from_bind, run_call_openrouter_api.
  destruct (has_api_key cfg); [|reflexivity].
  cbv zeta. unfold contextual_request.
  destruct (completion_text _); reflexivity.
Qed.

Lemma run_generate_ai_response_http (user_message : str) (past : list event) :
  run_from w past (generate_ai_response_http cfg user_message) =
  if has_api_key cfg then
    let req := direct_request cfg user_message in
    let o := w_requests_post w past req in
    ([Ev_requests_post req o], completion_text o)
  else ([], Returned None).
Proof.
  unfold generate_ai_response_http.
  fold (has_api_key cfg).
  destruct (has_api_key cfg) eqn:K; [|reflexivity].
  simpl negb. cbv iota.
  rewrite run_from_bind, run_call_openrouter_api, K.
  cbv zeta. unfold direct_request.
  destruct (completion_text _); reflexivity.
Qed.

End RunHelpers.

(* ================================================================== *)
(** ** The paths of [generate_response] *)

Section Paths.

Variable lower : str -> str.
Variable cfg : config.
Variable w : world.

Lemma not_canned_inv (user_message : str) :
  is_canned lower user_message = false ->
  (contains (lit "hello") (lower user_message)
   || contains (lit "hi") (lower user_message) = false)
  /\ contains (lit "help") (lower user_message) = false
  /\ contains (lit "time") (lower user_message) = false.
Proof.
  unfold is_canned. intros H.
  apply orb_false_iff in H as [H Ht].
  apply orb_false_iff in H as [H Hh].
  auto.
Qed.

(** A canned reply makes no search call and no completion call. *)
Lemma run_canned (user_message : str) :
  is_canned lower user_message = true ->
  forall ev, In ev (fst (run w (generate_response lower cfg user_message))) ->
             is_search ev = false /\ is_completion ev = false.
Proof.
  unfold is_canned, run, generate_response. intros H ev.
  destruct (contains (lit "hello") (lower user_message)
            || contains (lit "hi") (lower user_message)); [intros []|].
  destruct (contains (lit "help") (lower user_message)); [intros []|].
  destruct (contains (lit "time") (lower user_message)); [|discriminate].
  simpl. intros [<-|[]]. split; reflexivity.
Qed.

(** The explicit search command. *)
Lemma run_explicit_search (user_message : str) :
  is_canned lower user_message = false ->
  startswith (lit "search ") (lower user_message) = true ->
  run w (generate_response lower cfg user_message) =
  let query := strip (skipn 7 user_message) in
  let o := w_ddgs_text w [] query (max_results_of cfg) in
  let ev := Ev_ddgs_text query (max_results_of cfg) o in
  let search_results := search_text cfg query o in
  if usable_results search_results
  then
    (ev :: fst (run_from w [ev]
                  (generate_contextual_response cfg user_message search_results)),
     snd (run_from w [ev]
            (generate_contextual_response cfg user_message search_results)))
  else ([ev], Returned (Some search_results)).
Proof.
  intros Hc Hs. apply not_canned_inv in Hc as (Hg & Hh & Ht).
  unfold run, generate_response. rewrite Hg, Hh, Ht, Hs.
  cbv zeta. generalize (strip (skipn 7 user_message)). intros query.
  rewrite run_from_bind, run_perform_search. cbv zeta.
  cbn [fst snd app].
  destruct (usable_results _) eqn:U.
  - reflexivity.
  - rewrite truthy_search_text. reflexivity.
Qed.


(** The LLM-assisted path: one classification call; on its failure, or on
    a failure later in the [try], the handler asks for a direct answer. *)
Lemma run_llm_path (user_message : str) :
  is_canned lower user_message = false ->
  startswith (lit "search ") (lower user_message) = false ->
  has_api_key cfg = true ->
  run w (generate_response lower cfg user_message) =
  let req := classify_request cfg user_message in
  let o := w_requests_post w [] req in
  let ev := Ev_requests_post req o in
  let handler past :=
    run_from w past (generate_ai_response_http cfg user_message) in
  match completion_text o with
  | Raised _ => (ev :: fst (handler [ev]), snd (handler [ev]))
  | Returned search_decision =>
      let body :=
        run_from w [ev] (after_classification cfg user_message search_decision) in
      match snd body with
      | Returned a => (ev :: fst body, Returned a)
      | Raised _ =>
          (ev :: fst body ++ fst (handler (ev :: fst body)),
           snd (handler (ev :: fst body)))
      end
  end.
Proof.
  intros Hc Hs K. apply not_canned_inv in Hc as (Hg & Hh & Ht).
  unfold run, generate_response. rewrite Hg, Hh, Ht, Hs.
  fold (has_api_key cfg). rewrite K.
  rewrite run_from_try_except, run_from_bind.
  unfold analyze_search_need. rewrite run_call_openrouter_api, K.
  cbv zeta. fold (classify_request cfg user_message).
  cbn [fst snd app].
  destruct (completion_text _) as [d|e]; [|reflexivity].
  fold (after_classification cfg user_message d).
  destruct (snd (run_from w _ (after_classification cfg user_message d)));
    reflexivity.
Qed.

(** Without credentials, and with no command in the message, nothing is
    called and the fixed fallback is returned. *)
Lemma run_no_credentials (user_message : str) :
  is_canned lower user_message = false ->
  startswith (lit "search ") (lower user_message) = false ->
  has_api_key cfg = false ->
  run w (generate_response lower cfg user_message) =
  ([], Returned (Some (technical_issues_text user_message))).
Proof.
  intros Hc Hs K. apply not_canned_inv in Hc as (Hg & Hh & Ht).
  unfold run, generate_response. rewrite Hg, Hh, Ht, Hs.
  fold (has_api_key cfg). rewrite K. reflexivity.
Qed.

End Paths.


(* ================================================================== *)
(** ** Greeting and the explicit search command *)

Section Commands.

Variable lower : str -> str.
Variable cfg : config.
Variable w : world.

(** C5.  A message whose lower-cased text contains hello or hi anywhere gets
    the fixed greeting: whatever the credentials and the search settings
    are, the run makes no external call at all and returns the greeting. *)
Theorem greeting_without_external_calls (user_message : str) :
  contains (lit "hello") (lower user_message)
  || contains (lit "hi") (lower user_message) = true ->
  run w (generate_response lower cfg user_message)
  = ([], Returned (Some greeting_text)).
Proof.
  intros H. unfold run, generate_response. rewrite H. reflexivity.
Qed.

Lemma contextual_calls_are_completions (user_message search_results : str)
    (past : list event) (ev : event) :
  In ev (fst (run_from w past
                (generate_contextual_response cfg user_message search_results))) ->
  is_search ev = false.
Proof.
  rewrite run_generate_contextual_response.
  destruct (has_api_key cfg); simpl; [intros [<-|[]]; reflexivity|intros []].
Qed.

Lemma direct_calls_are_completions (user_message : str)
    (past : list event) (ev : event) :
  In ev (fst (run_from w past (generate_ai_response_http cfg user_message))) ->
  is_search ev = false.
Proof.
  rewrite run_generate_ai_response_http.
  destruct (has_api_key cfg); simpl; [intros [<-|[]]; reflexivity|intros []].
Qed.

(** C6 (as amended).  For a message whose lower-cased text starts with the
    search prefix and holds none of the canned words (hello, hi, help,
    time): the search backend is called first, with the remainder of the
    message after the seven characters of the prefix, stripped, as its
    query; no other query is ever handed to it; and when that search comes
    back with zero results, it is the only call made and the reply is the
    no-results sentence written around this very query. *)
Theorem explicit_search_passes_trimmed_remainder (user_message : str) :
  startswith (lit "search ") (lower user_message) = true ->
  is_canned lower user_message = false ->
  let query := strip (skipn 7 user_message) in
  let o := w_ddgs_text w [] query (max_results_of cfg) in
  let r := run w (generate_response lower cfg user_message) in
  (exists rest, fst r = Ev_ddgs_text query (max_results_of cfg) o :: rest)
  /\ (forall q m o', In (Ev_ddgs_text q m o') (fst r) -> q = query)
  /\ (o = Returned [] ->
      r = ([Ev_ddgs_text query (max_results_of cfg) (Returned [])],
           Returned (Some (lit "I couldn't find any results for '" ++ query
                           ++ lit "'. Try a different search term!")))).
Proof.
  intros Hs Hc query o r. subst r.
  rewrite (run_explicit_search lower cfg w user_message Hc Hs).
  cbv zeta. fold query. fold o.
  rewrite usable_search_text.
  destruct o as [[|h hs]|e] eqn:O; cbn [fst snd].
  - split; [eexists; reflexivity|]. split; [|intros _; reflexivity].
    intros q m o' [E|[]]. now inversion E.
  - split; [eexists; reflexivity|]. split; [|discriminate].
    intros q m o' [E|Hin]; [now inversion E|].
    apply contextual_calls_are_completions in Hin. discriminate Hin.
  - split; [eexists; reflexivity|]. split; [|discriminate].
    intros q m o' [E|Hin]; [now inversion E|].
    apply contextual_calls_are_completions in Hin. discriminate Hin.
Qed.

(** C10.  Without credentials, a message that starts with the search prefix
    and holds none of the canned commands still triggers the search, which
    is the only call made; when the backend returns results, the reply is
    the formatted result text itself. *)
Theorem explicit_search_without_credentials (user_message : str) :
  has_api_key cfg = false ->
  startswith (lit "search ") (lower user_message) = true ->
  is_canned lower user_message = false ->
  let query := strip (skipn 7 user_message) in
  let o := w_ddgs_text w [] query (max_results_of cfg) in
  let r := run w (generate_response lower cfg user_message) in
  fst r = [Ev_ddgs_text query (max_results_of cfg) o]
  /\ (forall results,
        results <> [] -> o = Returned results ->
        snd r = Returned (Some (cap_response
                   (raw_rendering (max_results_of cfg) (summary_length_of cfg)
                      query results)))).
Proof.
  intros K Hs Hc query o r. subst r.
  rewrite (run_explicit_search lower cfg w user_message Hc Hs).
  cbv zeta. fold query. fold o.
  rewrite run_generate_contextual_response, K.
  destruct (usable_results (search_text cfg query o)) eqn:U; cbn [fst snd].
  - split; [reflexivity|].
    intros results Hne ->. destruct results; [contradiction|reflexivity].
  - split; [reflexivity|].
    intros results Hne E. rewrite E in U.
    rewrite usable_search_text in U.
    destruct results; [contradiction|discriminate].
Qed.

End Commands.

(* ================================================================== *)
(** ** Literal patterns *)

Lemma match_here_literal (p : str) (rest : Re.pattern) :
  forall s,
    Re.match_here (List.map (Re.lit1 Re.chr_i) p ++ rest) s =
    if startswith_i p s then Re.match_here rest (skipn (length p) s) else None.
Proof.
  induction p as [|a p IH]; intros s; [reflexivity|].
  destruct s as [|c s]; [reflexivity|].
  cbn [List.map app Re.match_here Re.lit1 Re.qnt Re.cls Re.in_group
       startswith_i length skipn].
  destruct (Re.chr_i a c); [|reflexivity].
  rewrite IH. cbn [andb].
  destruct (startswith_i p s); [|reflexivity].
  now destruct (Re.match_here rest _).
Qed.

Lemma search_literal (p : str) (s : str) :
  Re.search (List.map (Re.lit1 Re.chr_i) p) s =
  if contains_i p s then Some [] else None.
Proof.
  induction s as [|c s IH].
  - cbn [Re.search contains_i].
    rewrite <- (app_nil_r (List.map _ p)), match_here_literal.
    destruct (startswith_i p []); reflexivity.
  - cbn [Re.search contains_i].
    rewrite <- (app_nil_r (List.map _ p)), match_here_literal.
    rewrite app_nil_r.
    destruct (startswith_i p (c :: s)); [reflexivity|].
    rewrite IH. reflexivity.
Qed.

(** [should_search] is the case-insensitive substring test for the tag. *)
Lemma should_search_contains_i (response : str) :
  should_search (Some response) =
  contains_i (lit "<search>YES</search>") response.
Proof.
  unfold should_search, re_yes_tag, Re.text_i.
  destruct response as [|c s]; [reflexivity|].
  cbn [truthy negb get]. rewrite search_literal.
  now destruct (contains_i _ _).
Qed.

Lemma should_search_none : should_search None = false.
Proof. reflexivity. Qed.

(* ================================================================== *)
(** ** The classifier decides whether to search *)

Section Classifier.

Variable lower : str -> str.
Variable cfg : config.
Variable w : world.

Lemma direct_answer_never_searches (user_message : str) (past : list event) :
  existsb is_search
    (fst (run_from w past (generate_ai_response_http cfg user_message))) = false.
Proof.
  rewrite run_generate_ai_response_http. now destruct (has_api_key cfg).
Qed.

Lemma contextual_never_searches (user_message search_results : str)
    (past : list event) :
  existsb is_search
    (fst (run_from w past
            (generate_contextual_response cfg user_message search_results)))
  = false.
Proof.
  rewrite run_generate_contextual_response. now destruct (has_api_key cfg).
Qed.

Lemma after_classification_searches (user_message : str)
    (search_decision : option str) (past : list event) :
  existsb is_search
    (fst (run_from w past
            (after_classification cfg user_message search_decision)))
  = should_search search_decision.
Proof.
  unfold after_classification.
  destruct (should_search search_decision).
  - rewrite run_from_bind, run_perform_search. cbv zeta. cbn [fst snd].
    reflexivity.
  - apply direct_answer_never_searches.
Qed.

(** C7 (as amended).  On the LLM-assisted path (credentials set, no canned
    command, no search prefix): when the classification call returns a
    text, the search backend is called exactly when that text contains the
    YES tag, compared case-insensitively; an empty text, a text with only
    the NO tag, and a failed classification call all lead to no search. *)
Theorem search_iff_yes_tag (user_message : str) :
  is_canned lower user_message = false ->
  startswith (lit "search ") (lower user_message) = false ->
  has_api_key cfg = true ->
  let calls := fst (run w (generate_response lower cfg user_message)) in
  match completion_text
          (w_requests_post w [] (classify_request cfg user_message)) with
  | Returned (Some response) =>
      existsb is_search calls
      = contains_i (lit "<search>YES</search>") response
  | Returned None | Raised _ => existsb is_search calls = false
  end.
Proof.
  intros Hc Hs K calls. subst calls.
  rewrite (run_llm_path lower cfg w user_message Hc Hs K). cbv zeta.
  destruct (completion_text _) as [d|e].
  - set (body := run_from w _ (after_classification cfg user_message d)).
    assert (B : existsb is_search (fst body) = should_search d)
      by apply after_classification_searches.
    destruct (snd body); cbn [fst existsb is_search orb];
      [|rewrite existsb_app, direct_answer_never_searches, orb_false_r];
      rewrite B;
      (destruct d as [response|];
       [apply should_search_contains_i|reflexivity]).
  - cbn [fst existsb is_search orb]. apply direct_answer_never_searches.
Qed.

End Classifier.

(* ================================================================== *)
(** ** The statements above at concrete inputs *)

Import Examples.

(** C5 at a message with a capital: no call is made, the greeting comes back. *)
Lemma greeting_without_external_calls_witness :
  contains (lit "hello") (ascii_lower (lit "Hi there"))
  || contains (lit "hi") (ascii_lower (lit "Hi there")) = true
  /\ run world_no_completion
       (generate_response ascii_lower cfg_no_key (lit "Hi there"))
     = ([], Returned (Some greeting_text)).
Proof.
  split; [reflexivity|].
  apply greeting_without_external_calls. reflexivity.
Defined.

(** C6 at a message with a capitalised prefix and blanks around the query:
    the backend is asked for the stripped remainder and, finding nothing,
    the reply quotes it. *)
Lemma explicit_search_passes_trimmed_remainder_witness :
  startswith (lit "search ") (ascii_lower (lit "Search  cats ")) = true
  /\ is_canned ascii_lower (lit "Search  cats ") = false
  /\ w_ddgs_text world_no_results [] (lit "cats") (max_results_of cfg_key)
     = Returned []
  /\ run world_no_results
       (generate_response ascii_lower cfg_key (lit "Search  cats "))
     = ([Ev_ddgs_text (lit "cats") 3 (Returned [])],
        Returned (Some (lit "I couldn't find any results for 'cats'. Try a different search term!"))).
Proof.
  repeat (split; [reflexivity|]).
  destruct (@explicit_search_passes_trimmed_remainder ascii_lower cfg_key
              world_no_results (lit "Search  cats ") eq_refl eq_refl)
    as (_ & _ & H).
  apply H. reflexivity.
Defined.

(** C6, the claim as stated fails: a message that starts with the search
    prefix and holds hi inside a word gets the greeting; no query reaches
    the backend, which would have found nothing, and the reply is not the
    no-results sentence. *)
Lemma search_prefix_loses_to_canned_word :
  startswith (lit "search ") (ascii_lower (lit "search hiking trails")) = true
  /\ w_ddgs_text world_no_results []
       (strip (skipn 7 (lit "search hiking trails")))
       (max_results_of cfg_key)
     = Returned []
  /\ run world_no_results
       (generate_response ascii_lower cfg_key (lit "search hiking trails"))
     = ([], Returned (Some greeting_text)).
Proof. repeat split; reflexivity. Qed.

(** C10 at a search command without credentials: one backend call, and the
    reply is the rendering of the one result. *)
Lemma explicit_search_without_credentials_witness :
  has_api_key cfg_no_key = false
  /\ startswith (lit "search ") (ascii_lower (lit "search cats")) = true
  /\ is_canned ascii_lower (lit "search cats") = false
  /\ run world_no_completion
       (generate_response ascii_lower cfg_no_key (lit "search cats"))
     = ([Ev_ddgs_text (lit "cats") 3 (Returned [one_hit])],
        Returned (Some (results_header (lit "cats") ++ nl
                        ++ lit "1. Cats" ++ nl
                        ++ lit "Cats are small animals...." ++ nl))).
Proof.
  repeat (split; [reflexivity|]).
  destruct (explicit_search_without_credentials ascii_lower cfg_no_key
              world_no_completion (lit "search cats")
              eq_refl eq_refl eq_refl) as (Hcalls & Hreply).
  specialize (Hreply [one_hit] ltac:(discriminate) eq_refl).
  destruct (run world_no_completion
              (generate_response ascii_lower cfg_no_key (lit "search cats")))
    as [calls reply].
  cbn [fst snd] in Hcalls, Hreply. rewrite Hcalls, Hreply. reflexivity.
Defined.

(** C7 at a classification that holds the YES tag in mixed case: the backend
    is called. *)
Lemma search_iff_yes_tag_witness :
  is_canned ascii_lower (lit "latest news") = false
  /\ startswith (lit "search ") (ascii_lower (lit "latest news")) = false
  /\ has_api_key cfg_key = true
  /\ existsb is_search
       (fst (run (world_replying (lit "<Search>yes</SEARCH> fresh data"))
               (generate_response ascii_lower cfg_key (lit "latest news"))))
     = true.
Proof.
  repeat (split; [reflexivity|]).
  exact (search_iff_yes_tag ascii_lower cfg_key
           (world_replying (lit "<Search>yes</SEARCH> fresh data"))
           (lit "latest news") eq_refl eq_refl eq_refl).
Defined.

(** C7, the claim as stated fails: the classifier's text holds the NO tag
    (and, further on, the YES tag), and the search backend is called. *)
Lemma no_tag_does_not_prevent_search :
  let response := lit "<search>NO</search> unless <search>YES</search>" in
  let user_message := lit "latest news" in
  contains (lit "<search>NO</search>") response = true
  /\ completion_text
       (w_requests_post (world_replying response) []
          (classify_request cfg_key user_message))
     = Returned (Some response)
  /\ existsb is_search
       (fst (run (world_replying response)
               (generate_response ascii_lower cfg_key user_message)))
     = true.
Proof. repeat split; vm_compute; reflexivity. Qed.

(** C1, the code at two failing inputs.  With credentials set: the search
    command, when the completion endpoint is unreachable, ends in an
    exception; so does a plain question; and a completion made of blanks
    makes the reply the empty string. *)
Theorem generate_response_raises_or_returns_empty :
  snd (run world_no_completion
         (generate_response ascii_lower cfg_key (lit "search cats")))
  = Raised ConnectionError
  /\ snd (run world_no_completion
            (generate_response ascii_lower cfg_key (lit "what is rust")))
     = Raised ConnectionError
  /\ snd (run (world_replying (lit "  "))
            (generate_response ascii_lower cfg_key (lit "what is rust")))
     = Returned (Some []).
Proof. repeat split; vm_compute; reflexivity. Qed.

(** C2, the code at the failing input.  The classifier asks for a search,
    the backend raises: the text of the search error is the grounding of
    the contextual completion call, and, that completion being empty, it is
    the reply. *)
Theorem search_error_reaches_contextual_composition :
  let user_message := lit "latest news" in
  let w := world_classifying (ok_reply (lit "<search>YES</search>"))
             (ok_reply []) (Raised SearchBackendError) in
  run w (generate_response ascii_lower cfg_key user_message)
  = ([Ev_requests_post (classify_request cfg_key user_message)
        (ok_reply (lit "<search>YES</search>"));
      Ev_ddgs_text user_message 3 (Raised SearchBackendError);
      Ev_requests_post
        (contextual_request cfg_key user_message
           (search_error_text user_message))
        (ok_reply [])],
     Returned (Some (search_error_text user_message))).
Proof. vm_compute. reflexivity. Qed.

(** C9, the code at the failing input.  Contextual composition over a
    formatted result text, the completion endpoint unreachable: the call
    ends in the exception, the result text is not returned. *)
Theorem contextual_composition_raises_on_failed_call :
  let search_results :=
    search_text cfg_key (lit "cats") (Returned [one_hit]) in
  truthy (Some search_results) = true
  /\ run world_no_completion
       (generate_contextual_response cfg_key (lit "search cats") search_results)
     = ([Ev_requests_post
           (contextual_request cfg_key (lit "search cats") search_results)
           (Raised ConnectionError)],
        Raised ConnectionError).
Proof. split; vm_compute; reflexivity. Qed.

(** The sibling case C9 does hold in: when the completion call gives no
    text (no credentials, or an empty completion), the result text comes
    back unchanged. *)
Lemma contextual_composition_falls_back_without_text
    (cfg : config) (w : world) (user_message search_results : str) :
  match completion_text
          (w_requests_post w []
             (contextual_request cfg user_message search_results)) with
  | Returned response => has_api_key cfg = false \/ truthy response = false
  | Raised _ => has_api_key cfg = false
  end ->
  snd (run w (generate_contextual_response cfg user_message search_results))
  = Returned (Some search_results).
Proof.
  unfold run. rewrite run_generate_contextual_response.
  destruct (has_api_key cfg); [|reflexivity].
  cbv zeta. cbn [snd].
  destruct (completion_text _) as [r|e].
  - intros [F| ->]; [discriminate|reflexivity].
  - discriminate.
Qed.

(* ================================================================== *)
(** ** The cap on the rendering *)

Lemma truncation_hint_length : length truncation_hint = 60.
Proof. reflexivity. Qed.

Lemma cap_response_length (response : str) :
  length (cap_response response) <= 1800 + length truncation_hint.
Proof.
  unfold cap_response.
  destruct (Nat.ltb_spec 1800 (length response)) as [H|H].
  - rewrite length_app, length_firstn. lia.
  - lia.
Qed.

(** C3 (as amended).  When the backend returns a non-empty result list,
    [perform_search] returns the rendering unchanged if it has at most 1800
    characters, and otherwise its first 1800 characters followed by the
    fixed hint of 60 characters; so the returned text has at most 1860
    characters (under 2000), not at most 1800. *)
Theorem rendering_capped_before_hint (cfg : config) (w : world)
    (query : str) (results : list hit) :
  results <> [] ->
  w_ddgs_text w [] query (max_results_of cfg) = Returned results ->
  let raw :=
    raw_rendering (max_results_of cfg) (summary_length_of cfg) query results in
  exists response,
    snd (run w (perform_search cfg query)) = Returned response
    /\ length response <= 1860
    /\ (length raw <= 1800 -> response = raw)
    /\ (1800 < length raw ->
        response = firstn 1800 raw ++ truncation_hint
        /\ length response = 1860).
Proof.
  intros Hne Ho raw.
  exists (cap_response raw).
  unfold run. rewrite run_perform_search. cbv zeta. rewrite Ho.
  destruct results as [|r rs]; [contradiction|].
  cbn [snd search_text]. fold raw.
  split; [reflexivity|].
  split; [pose proof (cap_response_length raw) as L;
          rewrite truncation_hint_length in L; exact L|].
  unfold cap_response.
  destruct (Nat.ltb_spec 1800 (length raw)) as [H|H].
  - split; [lia|]. intros _. split; [reflexivity|].
    rewrite length_app, length_firstn, truncation_hint_length. lia.
  - split; [reflexivity|lia].
Qed.

(** C3 at a short query with one result. *)
Lemma rendering_capped_before_hint_witness :
  [Examples.one_hit] <> []
  /\ w_ddgs_text Examples.world_no_completion [] (lit "cats")
       (max_results_of Examples.cfg_key) = Returned [Examples.one_hit]
  /\ exists response,
       snd (run Examples.world_no_completion
              (perform_search Examples.cfg_key (lit "cats")))
       = Returned response
       /\ length response <= 1860.
Proof.
  split; [discriminate|]. split; [reflexivity|].
  destruct (@rendering_capped_before_hint Examples.cfg_key
              Examples.world_no_completion (lit "cats") [Examples.one_hit]
              ltac:(discriminate) eq_refl) as (response & E & L & _).
  exists response. split; assumption.
Defined.

(** C3, the claim as stated fails: a query of 1800 letters and one result
    give a text of 1860 characters. *)
Lemma capped_rendering_exceeds_1800 :
  let query := repeat 97%N 1800 in
  w_ddgs_text Examples.world_no_completion [] query
    (max_results_of Examples.cfg_key) = Returned [Examples.one_hit]
  /\ match snd (run Examples.world_no_completion
                  (perform_search Examples.cfg_key query)) with
     | Returned response => length response
     | Raised _ => 0
     end = 1860.
Proof. split; vm_compute; reflexivity. Qed.

(* ================================================================== *)
(** ** Whitespace normalisation *)


Lemma leading_spaces_lstrip (s : str) :
  length s = leading_spaces s + length (lstrip s).
Proof.
  induction s as [|c s IH]; [reflexivity|].
  cbn [leading_spaces lstrip]. destruct (is_space c); cbn [length]; lia.
Qed.

Lemma star_spaces (s : str) :
  Re.star is_space (fun (_ : char) (r : str * str) => r)
    (fun t => Some ([], t)) s
  = Some ([], lstrip s).
Proof.
  induction s as [|c s IH]; [reflexivity|].
  cbn [Re.star lstrip]. destruct (is_space c); [|reflexivity].
  now rewrite IH.
Qed.

Lemma match_len_spaces (c : char) (s : str) :
  Re.match_len re_spaces (c :: s) =
  if is_space c then Some (S (leading_spaces s)) else None.
Proof.
  unfold Re.match_len, re_spaces.
  cbn [Re.match_here Re.qnt Re.cls Re.in_group].
  destruct (is_space c); [|reflexivity].
  change (Re.star is_space _ _ s)
    with (Re.star is_space (fun (_ : char) (r : str * str) => r)
            (fun t => Some ([], t)) s).
  rewrite star_spaces. cbn [option_map snd length].
  f_equal. pose proof (leading_spaces_lstrip s). lia.
Qed.

Lemma sub_spaces_collapse (s : str) :
  Re.sub_from re_spaces (lit " ") 0 s = collapse false s
  /\ Re.sub_from re_spaces (lit " ") (leading_spaces s) s = collapse true s.
Proof.
  induction s as [|c s [IH0 IH1]]; [split; reflexivity|].
  assert (E0 : Re.sub_from re_spaces (lit " ") 0 (c :: s)
               = collapse false (c :: s)).
  { cbn [Re.sub_from collapse]. rewrite match_len_spaces.
    destruct (is_space c).
    - rewrite IH1. reflexivity.
    - now rewrite IH0. }
  split; [exact E0|].
  cbn [leading_spaces]. destruct (is_space c) eqn:Sp.
  - cbn [Re.sub_from collapse]. rewrite Sp. exact IH1.
  - rewrite E0. cbn [collapse]. now rewrite Sp.
Qed.

Lemma normalize_spaces_collapse (text : str) :
  normalize_spaces text = collapse false (strip text).
Proof. apply sub_spaces_collapse. Qed.


Lemma lstrip_head_ok (s : str) : head_ok s -> lstrip s = s.
Proof. destruct s as [|c s]; [reflexivity|]. cbn. now intros ->. Qed.

Lemma head_ok_lstrip (s : str) : head_ok (lstrip s).
Proof.
  induction s as [|c s IH]; [exact I|].
  cbn [lstrip]. destruct (is_space c) eqn:Sp; [exact IH|exact Sp].
Qed.

Lemma strip_fixed (s : str) : head_ok s -> head_ok (rev s) -> strip s = s.
Proof.
  intros H1 H2. unfold strip, rstrip.
  rewrite (lstrip_head_ok s H1), (lstrip_head_ok (rev s) H2).
  apply rev_involutive.
Qed.

Lemma lstrip_snoc (l : str) (c : char) :
  is_space c = false -> exists l', lstrip (l ++ [c]) = l' ++ [c].
Proof.
  intros Sp. induction l as [|a l [l' IH]].
  - exists []. cbn. now rewrite Sp.
  - cbn [app lstrip]. destruct (is_space a).
    + now exists l'.
    + now exists (a :: l).
Qed.


Lemma head_ok_strip (s : str) : head_ok (strip s) /\ head_ok (rev (strip s)).
Proof.
  unfold strip, rstrip. rewrite rev_involutive.
  split; [|apply head_ok_lstrip].
  pose proof (head_ok_lstrip s) as H.
  destruct (lstrip s) as [|c y]; [exact I|].
  cbn [rev]. destruct (@lstrip_snoc (rev y) c H) as [l' ->].
  rewrite rev_app_distr. exact H.
Qed.





(* ================================================================== *)
(** ** [clean_text] *)

Lemma clean_text_unfold (text : str) :
  clean_text (Some text) =
  match text with
  | [] => []
  | _ :: _ =>
      Re.sub re_tag [] (Re.sub re_entity [] (normalize_spaces text))
  end.
Proof. destruct text; reflexivity. Qed.




(** Other ways a second pass changes the text: a leading space left by a
    removed tag, and an entity put together by the removal of another. *)
Example clean_text_second_pass_changes :
  clean_text (Some (lit "<b> x")) = lit " x"
  /\ clean_text (Some (lit " x")) = lit "x"
  /\ clean_text (Some (lit "&am&amp;p; x")) = lit "&amp; x"
  /\ clean_text (Some (lit "&amp; x")) = lit " x".
Proof. repeat split; reflexivity. Qed.

(** A text with neither an ampersand nor an opening angle bracket is one
    on which the two patterns find nothing. *)
Lemma search_needs_first_character (a : char) (rest : Re.pattern) (s : str) :
  Forall (fun c => c <> a) s ->
  Re.search (Re.Piece (Re.chr a) Re.One false :: rest) s = None.
Proof.
  induction 1 as [|c s Hc _ IH]; [reflexivity|].
  cbn [Re.search Re.match_here Re.qnt Re.cls].
  unfold Re.chr at 1. apply N.eqb_neq in Hc. now rewrite Hc.
Qed.

Lemma Forall_lstrip (P : char -> Prop) (s : str) :
  Forall P s -> Forall P (lstrip s).
Proof.
  induction 1 as [|c s Hc Hs IH]; [constructor|].
  cbn [lstrip]. destruct (is_space c); [exact IH|now constructor].
Qed.

Lemma Forall_strip (P : char -> Prop) (s : str) :
  Forall P s -> Forall P (strip s).
Proof.
  intros H. unfold strip, rstrip.
  apply Forall_rev, Forall_lstrip, Forall_rev, Forall_lstrip, H.
Qed.

Lemma Forall_collapse (P : char -> Prop) (s : str) :
  P 32%N -> Forall P s -> forall b, Forall P (collapse b s).
Proof.
  intros P32. induction 1 as [|c s Hc Hs IH]; intros b; [constructor|].
  cbn [collapse]. destruct (is_space c); [destruct b|]; auto.
Qed.

Lemma no_markup_characters (text : str) :
  Forall (fun c => c <> 38%N /\ c <> 60%N) text ->
  Re.search re_entity (normalize_spaces text) = None
  /\ Re.search re_tag (normalize_spaces text) = None.
Proof.
  intros H. rewrite normalize_spaces_collapse.
  assert (F : Forall (fun c => c <> 38%N /\ c <> 60%N)
                (collapse false (strip text))).
  { apply Forall_collapse; [split; discriminate|]. now apply Forall_strip. }
  split; apply search_needs_first_character;
    (eapply Forall_impl; [|exact F]); cbv beta; intros c [? ?]; assumption.
Qed.

(* ================================================================== *)
(** ** The suggested query *)








Lemma extract_search_query_unfold (response user_message : str) :
  extract_search_query (Some response) user_message =
  match response with
  | [] => user_message
  | _ :: _ =>
      match Re.search re_suggested_query response with
      | Some group1 =>
          if truthy (Some (strip group1)) then strip group1 else user_message
      | None => user_message
      end
  end.
Proof. destruct response; reflexivity. Qed.





(** Two more ways the query differs from the suggestion: an apostrophe in
    it, and an earlier [search:] in the rationale. *)
Example suggested_query_other_cuts :
  extract_search_query
    (Some (lit "<search>YES</search> Search: " ++ dq
           ++ lit "today's headlines" ++ dq))
    (lit "news")
  = lit "today"
  /\ extract_search_query
       (Some (lit "<search>YES</search> A web search: needed. Search: " ++ dq
              ++ lit "cats" ++ dq))
       (lit "cats")
     = lit "needed".
Proof. split; reflexivity. Qed.

(** On the LLM-assisted path the query handed to the backend is the one
    [extract_search_query] returns. *)
Lemma llm_search_uses_extracted_query (lower : str -> str) (cfg : config)
    (w : world) (user_message response : str) :
  is_canned lower user_message = false ->
  startswith (lit "search ") (lower user_message) = false ->
  has_api_key cfg = true ->
  completion_text (w_requests_post w [] (classify_request cfg user_message))
  = Returned (Some response) ->
  should_search (Some response) = true ->
  exists o1 o2 rest,
    fst (run w (generate_response lower cfg user_message))
    = Ev_requests_post (classify_request cfg user_message) o1
      :: Ev_ddgs_text (extract_search_query (Some response) user_message)
           (max_results_of cfg) o2
      :: rest.
Proof.
  intros Hc Hs K Hr Hy.
  rewrite (run_llm_path lower cfg w user_message Hc Hs K). cbv zeta.
  rewrite Hr. unfold after_classification. rewrite Hy.
  rewrite run_from_bind, run_perform_search. cbv zeta. cbn [fst snd app].
  match goal with
  | |- context [match ?b with Returned _ => _ | Raised _ => _ end] =>
      destruct b
  end; cbn [fst]; eexists _, _, _; reflexivity.
Qed.

(* ================================================================== *)
(** ** What does hold around the fallbacks *)

(** Without credentials [generate_response] never raises and returns a
    non-empty string, whatever the message and the outside world. *)
Lemma generate_response_total_without_credentials (lower : str -> str)
    (cfg : config) (w : world) (user_message : str) :
  has_api_key cfg = false ->
  exists reply,
    snd (run w (generate_response lower cfg user_message)) = Returned reply
    /\ truthy reply = true.
Proof.
  intros K.
  destruct (is_canned lower user_message) eqn:Hc.
  - unfold is_canned in Hc. unfold run, generate_response.
    destruct (contains (lit "hello") (lower user_message)
              || contains (lit "hi") (lower user_message));
      [eexists; split; reflexivity|].
    destruct (contains (lit "help") (lower user_message));
      [eexists; split; reflexivity|].
    destruct (contains (lit "time") (lower user_message)); [|discriminate].
    eexists; split; reflexivity.
  - destruct (startswith (lit "search ") (lower user_message)) eqn:Hs.
    + rewrite (run_explicit_search lower cfg w user_message Hc Hs). cbv zeta.
      rewrite run_generate_contextual_response, K.
      destruct (usable_results _); cbn [snd];
        (eexists; split; [reflexivity|apply truthy_search_text]).
    + rewrite (run_no_credentials lower cfg w user_message Hc Hs K).
      eexists; split; reflexivity.
Qed.

(** [perform_search] itself never raises. *)
Lemma perform_search_never_raises (cfg : config) (w : world) (query : str)
    (past : list event) :
  exists text,
    snd (run_from w past (perform_search cfg query)) = Returned text
    /\ truthy (Some text) = true.
Proof.
  rewrite run_perform_search. cbv zeta. cbn [snd].
  eexists; split; [reflexivity|apply truthy_search_text].
Qed.

(** With zero results the LLM-assisted path does turn to the direct
    answer: the call after the search is the direct-answer request. *)
Lemma llm_zero_results_fall_back_to_direct_answer (lower : str -> str)
    (cfg : config) (w : world) (user_message response : str) :
  is_canned lower user_message = false ->
  startswith (lit "search ") (lower user_message) = false ->
  has_api_key cfg = true ->
  let ev1 := Ev_requests_post (classify_request cfg user_message)
               (w_requests_post w [] (classify_request cfg user_message)) in
  let query := extract_search_query (Some response) user_message in
  completion_text (w_requests_post w [] (classify_request cfg user_message))
  = Returned (Some response) ->
  should_search (Some response) = true ->
  w_ddgs_text w [ev1] query (max_results_of cfg) = Returned [] ->
  exists o rest,
    fst (run w (generate_response lower cfg user_message))
    = ev1 :: Ev_ddgs_text query (max_results_of cfg) (Returned [])
      :: Ev_requests_post (direct_request cfg user_message) o :: rest.
Proof.
  intros Hc Hs K ev1 query Hr Hy Ho.
  rewrite (run_llm_path lower cfg w user_message Hc Hs K). cbv zeta.
  rewrite Hr. unfold after_classification. rewrite Hy.
  rewrite run_from_bind, run_perform_search. cbv zeta. cbn [fst snd app].
  fold ev1. fold query. rewrite Ho. cbn [search_text].
  rewrite usable_no_results.
  rewrite run_generate_ai_response_http, K. cbv zeta. cbn [fst snd app].
  match goal with
  | |- context [match ?b with Returned _ => _ | Raised _ => _ end] =>
      destruct b
  end; cbn [fst app]; eexists _, _; reflexivity.
Qed.

(** The texts [perform_search] returns for an empty result list and for a
    backend failure quote the query and are not capped. *)
Example no_results_text_is_not_capped :
  length (search_text Examples.cfg_key (repeat 97%N 2000) (Returned []))
  = 2064
  /\ length (search_text Examples.cfg_key (repeat 97%N 2000)
               (Raised SearchBackendError))
     = 2077.
Proof. split; vm_compute; reflexivity. Qed.

(* ================================================================== *)
(** ** Further properties of the reply pipeline *)

Section Pipeline.

Variable lower : str -> str.
Variable cfg : config.
Variable w : world.

(** X1.  [perform_search] makes exactly one backend call, with the query
    it was given and the configured result count, never raises, and returns
    a non-empty text, whatever the backend does. *)
Theorem perform_search_one_call_never_raises (query : str)
    (past : list event) :
  exists o text,
    run_from w past (perform_search cfg query)
    = ([Ev_ddgs_text query (max_results_of cfg) o], Returned text)
    /\ text <> []
    /\ (forall e, o = Raised e -> text = search_error_text query)
    /\ (o = Returned [] -> text = no_results_text query).
Proof.
  rewrite run_perform_search. cbv zeta.
  eexists _, _. split; [reflexivity|].
  split.
  - pose proof (truthy_search_text cfg query
                  (w_ddgs_text w past query (max_results_of cfg))) as T.
    intros E. rewrite E in T. discriminate T.
  - split; [intros e ->|intros ->]; reflexivity.
Qed.

Lemma completion_free_without_key_contextual (user_message results : str)
    (past : list event) :
  has_api_key cfg = false ->
  run_from w past (generate_contextual_response cfg user_message results)
  = ([], Returned (Some results)).
Proof. intros K. now rewrite run_generate_contextual_response, K. Qed.

(** X2.  Without credentials no completion request is ever sent, and
    [generate_response] neither raises nor returns an empty reply. *)
Theorem no_credentials_no_completion_call (user_message : str) :
  has_api_key cfg = false ->
  existsb is_completion
    (fst (run w (generate_response lower cfg user_message))) = false
  /\ exists reply,
       snd (run w (generate_response lower cfg user_message))
       = Returned (Some reply)
       /\ reply <> [].
Proof.
  intros K.
  destruct (is_canned lower user_message) eqn:Hc.
  - unfold is_canned in Hc. unfold run, generate_response.
    destruct (contains (lit "hello") (lower user_message)
              || contains (lit "hi") (lower user_message));
      [split; [reflexivity|eexists; split; [reflexivity|discriminate]]|].
    destruct (contains (lit "help") (lower user_message));
      [split; [reflexivity|eexists; split; [reflexivity|discriminate]]|].
    destruct (contains (lit "time") (lower user_message)); [|discriminate].
    split; [reflexivity|eexists; split; [reflexivity|discriminate]].
  - destruct (startswith (lit "search ") (lower user_message)) eqn:Hs.
    + rewrite (run_explicit_search lower cfg w user_message Hc Hs). cbv zeta.
      rewrite completion_free_without_key_contextual by exact K.
      pose proof (truthy_search_text cfg (strip (skipn 7 user_message))
                    (w_ddgs_text w [] (strip (skipn 7 user_message))
                       (max_results_of cfg))) as T.
      destruct (usable_results _); cbn [fst snd existsb is_completion orb];
        (split; [reflexivity|]);
        (eexists; split; [reflexivity|]);
        intros E; rewrite E in T; discriminate T.
    + rewrite (run_no_credentials lower cfg w user_message Hc Hs K).
      split; [reflexivity|eexists; split; [reflexivity|discriminate]].
Qed.

(** X3.  Without credentials, a message that is no command gets the fixed
    reply that echoes it, and nothing is called. *)
Theorem fallback_echo_without_credentials (user_message : str) :
  is_canned lower user_message = false ->
  startswith (lit "search ") (lower user_message) = false ->
  has_api_key cfg = false ->
  run w (generate_response lower cfg user_message)
  = ([], Returned (Some (lit "I received your message: " ++ user_message
                         ++ nl
                         ++ lit "I'm experiencing some technical issues. Please try again later."))).
Proof. intros Hc Hs K. now rewrite run_no_credentials. Qed.

(** X4.  A message that holds one of the canned words is answered without
    any search or completion call, also when it starts with the search
    prefix or when credentials are set; the reply is a non-empty text. *)
Theorem canned_reply_makes_no_search_or_completion (user_message : str) :
  is_canned lower user_message = true ->
  existsb is_search
    (fst (run w (generate_response lower cfg user_message))) = false
  /\ existsb is_completion
       (fst (run w (generate_response lower cfg user_message))) = false
  /\ exists reply,
       snd (run w (generate_response lower cfg user_message))
       = Returned (Some reply)
       /\ reply <> [].
Proof.
  unfold is_canned, run, generate_response. intros Hc.
  destruct (contains (lit "hello") (lower user_message)
            || contains (lit "hi") (lower user_message));
    [repeat split; eexists; split; [reflexivity|discriminate]|].
  destruct (contains (lit "help") (lower user_message));
    [repeat split; eexists; split; [reflexivity|discriminate]|].
  destruct (contains (lit "time") (lower user_message)); [|discriminate].
  repeat split; eexists; split; [reflexivity|discriminate].
Qed.

(** X5.  The order of the commands: without hello and hi, a message with
    help gets the help text and no call is made; without help too, a
    message with time gets the clock's text after the fixed prefix, the
    clock being the only call. *)
Theorem help_then_time (user_message : str) :
  contains (lit "hello") (lower user_message)
  || contains (lit "hi") (lower user_message) = false ->
  (contains (lit "help") (lower user_message) = true ->
   run w (generate_response lower cfg user_message)
   = ([], Returned (Some help_text)))
  /\ (contains (lit "help") (lower user_message) = false ->
      contains (lit "time") (lower user_message) = true ->
      run w (generate_response lower cfg user_message)
      = ([Ev_datetime_now (w_datetime_now w [])],
         Returned (Some (lit "Current time: " ++ w_datetime_now w [])))).
Proof.
  intros Hg. unfold run, generate_response. rewrite Hg. split.
  - intros ->. reflexivity.
  - intros -> ->. reflexivity.
Qed.

End Pipeline.

(* ================================================================== *)
(** ** How many calls one message can cause *)

Section CallBudget.

Variable lower : str -> str.
Variable cfg : config.
Variable w : world.

Ltac split_cases :=
  repeat match goal with
         | |- context [match ?x with Returned _ => _ | Raised _ => _ end] =>
             destruct x
         | |- context [if ?b then _ else _] => destruct b
         end.

Lemma after_classification_budget (user_message : str)
    (search_decision : option str) (past : list event) :
  let r := run_from w past
             (after_classification cfg user_message search_decision) in
  length (filter is_search (fst r)) <= 1
  /\ length (filter is_completion (fst r)) <= 1
  /\ length (fst r) <= 2.
Proof.
  cbv zeta. unfold after_classification.
  destruct (should_search search_decision).
  - rewrite run_from_bind, run_perform_search. cbv zeta. cbn [fst snd app].
    destruct (usable_results _).
    + rewrite run_generate_contextual_response.
      split_cases; cbn; lia.
    + rewrite run_generate_ai_response_http.
      split_cases; cbn; lia.
  - rewrite run_generate_ai_response_http.
    split_cases; cbn; lia.
Qed.

(** X6.  One message causes at most one search call, at most three
    completion requests (classification, contextual composition, direct
    answer) and at most four calls in all, whatever the outside world
    does. *)
Theorem call_budget (user_message : str) :
  let calls := fst (run w (generate_response lower cfg user_message)) in
  length (filter is_search calls) <= 1
  /\ length (filter is_completion calls) <= 3
  /\ length calls <= 4.
Proof.
  cbv zeta.
  destruct (is_canned lower user_message) eqn:Hc.
  - unfold is_canned in Hc. unfold run, generate_response.
    destruct (contains (lit "hello") (lower user_message)
              || contains (lit "hi") (lower user_message)); [cbn; lia|].
    destruct (contains (lit "help") (lower user_message)); [cbn; lia|].
    destruct (contains (lit "time") (lower user_message)); [|discriminate].
    cbn. lia.
  - destruct (startswith (lit "search ") (lower user_message)) eqn:Hs.
    + rewrite (run_explicit_search lower cfg w user_message Hc Hs). cbv zeta.
      rewrite run_generate_contextual_response.
      split_cases; cbn; lia.
    + destruct (has_api_key cfg) eqn:K.
      * rewrite (run_llm_path lower cfg w user_message Hc Hs K). cbv zeta.
        destruct (completion_text _) as [d|e].
        -- match goal with
           | |- context [run_from w ?p (after_classification cfg ?m ?d)] =>
               pose proof (after_classification_budget m d p) as B;
               cbv zeta in B;
               destruct (run_from w p (after_classification cfg m d))
                 as [calls r]
           end.
           cbn [fst snd] in B |- *. destruct B as (B1 & B2 & B3).
           destruct r.
           ++ cbn [fst filter is_search is_completion length].
              lia.
           ++ rewrite run_generate_ai_response_http, K. cbv zeta.
              cbn [fst snd filter is_search is_completion length].
              rewrite !filter_app, !length_app.
              cbn [filter is_search is_completion length]. lia.
        -- rewrite run_generate_ai_response_http, K. cbv zeta.
           cbn. lia.
      * rewrite (run_no_credentials lower cfg w user_message Hc Hs K).
        cbn. lia.
Qed.

End CallBudget.

(* ================================================================== *)
(** ** The LLM-assisted path, call by call *)

Section LlmPath.

Variable lower : str -> str.
Variable cfg : config.
Variable w : world.
Variable user_message : str.

Hypothesis not_canned : is_canned lower user_message = false.
Hypothesis no_prefix : startswith (lit "search ") (lower user_message) = false.
Hypothesis key : has_api_key cfg = true.

Let o1 := w_requests_post w [] (classify_request cfg user_message).
Let ev1 := Ev_requests_post (classify_request cfg user_message) o1.

(** X7.  When the classification call fails (transport, HTTP status or
    malformed body), no search is made: the direct answer is requested
    next and its outcome, text or exception, is the outcome of
    [generate_response]. *)
Theorem classifier_failure_goes_to_direct_answer (e : exn) :
  completion_text o1 = Raised e ->
  let o2 := w_requests_post w [ev1] (direct_request cfg user_message) in
  run w (generate_response lower cfg user_message)
  = ([ev1; Ev_requests_post (direct_request cfg user_message) o2],
     completion_text o2).
Proof.
  intros H o2.
  rewrite (run_llm_path lower cfg w user_message not_canned no_prefix key).
  cbv zeta. fold o1. rewrite H.
  rewrite run_generate_ai_response_http, key. reflexivity.
Qed.

(** X8.  When the classifier's text does not ask for a search, the direct
    answer is requested with the message unchanged; a completion is
    returned stripped, empty or not; if that request fails, the handler
    sends it once more and the outcome of this last request, text or
    exception, is the outcome of [generate_response]. *)
Theorem no_search_goes_to_direct_answer (search_decision : option str) :
  completion_text o1 = Returned search_decision ->
  should_search search_decision = false ->
  let req := direct_request cfg user_message in
  let o2 := w_requests_post w [ev1] req in
  let ev2 := Ev_requests_post req o2 in
  user_content req = user_message
  /\ (forall answer,
        completion_text o2 = Returned answer ->
        run w (generate_response lower cfg user_message)
        = ([ev1; ev2], Returned answer))
  /\ (forall e,
        completion_text o2 = Raised e ->
        let o3 := w_requests_post w [ev1; ev2] req in
        run w (generate_response lower cfg user_message)
        = ([ev1; ev2; Ev_requests_post req o3], completion_text o3)).
Proof.
  intros H Hn req o2 ev2. split; [reflexivity|].
  rewrite (run_llm_path lower cfg w user_message not_canned no_prefix key).
  cbv zeta. fold o1. rewrite H. fold ev1.
  unfold after_classification. rewrite Hn.
  rewrite !run_generate_ai_response_http, key. cbv zeta.
  fold req. fold o2. cbn [fst snd app]. fold ev2.
  split.
  - intros answer ->. reflexivity.
  - intros e ->. reflexivity.
Qed.

(** X9.  When the classifier asks for a search and the backend returns
    results, the rendering is the grounding of one contextual completion
    request.  A non-empty completion is the reply; an empty one makes the
    rendering the reply. *)
Theorem search_then_contextual_reply (response : str) (results : list hit) :
  completion_text o1 = Returned (Some response) ->
  should_search (Some response) = true ->
  let query := extract_search_query (Some response) user_message in
  let o2 := w_ddgs_text w [ev1] query (max_results_of cfg) in
  let ev2 := Ev_ddgs_text query (max_results_of cfg) o2 in
  let rendering := search_text cfg query o2 in
  let req := contextual_request cfg user_message rendering in
  let o3 := w_requests_post w [ev1; ev2] req in
  o2 = Returned results ->
  results <> [] ->
  forall answer,
    completion_text o3 = Returned answer ->
    run w (generate_response lower cfg user_message)
    = ([ev1; ev2; Ev_requests_post req o3],
       Returned (if truthy answer then answer else Some rendering)).
Proof.
  intros H Hy query o2 ev2 rendering req o3 Ho Hne answer Ha.
  rewrite (run_llm_path lower cfg w user_message not_canned no_prefix key).
  cbv zeta. fold o1. rewrite H. fold ev1.
  unfold after_classification. rewrite Hy.
  rewrite run_from_bind, run_perform_search. cbv zeta. cbn [fst snd app].
  fold query. fold o2. fold ev2. fold rendering.
  assert (U : usable_results rendering = true).
  { unfold rendering. rewrite usable_search_text, Ho.
    destruct results; [contradiction|reflexivity]. }
  rewrite U, run_generate_contextual_response, key. cbv zeta.
  fold req. fold o3. rewrite Ha. reflexivity.
Qed.

(** X10.  On this path a failed contextual completion does not raise out
    of [generate_response]: the handler requests the direct answer, the
    search results are dropped, and the outcome of that fourth call is the
    outcome of [generate_response]. *)
Theorem contextual_failure_goes_to_direct_answer (response : str)
    (results : list hit) (e : exn) :
  completion_text o1 = Returned (Some response) ->
  should_search (Some response) = true ->
  let query := extract_search_query (Some response) user_message in
  let o2 := w_ddgs_text w [ev1] query (max_results_of cfg) in
  let ev2 := Ev_ddgs_text query (max_results_of cfg) o2 in
  let rendering := search_text cfg query o2 in
  let req := contextual_request cfg user_message rendering in
  let o3 := w_requests_post w [ev1; ev2] req in
  let ev3 := Ev_requests_post req o3 in
  let o4 := w_requests_post w [ev1; ev2; ev3]
              (direct_request cfg user_message) in
  o2 = Returned results ->
  results <> [] ->
  completion_text o3 = Raised e ->
  run w (generate_response lower cfg user_message)
  = ([ev1; ev2; ev3;
      Ev_requests_post (direct_request cfg user_message) o4],
     completion_text o4).
Proof.
  intros H Hy query o2 ev2 rendering req o3 ev3 o4 Ho Hne He.
  rewrite (run_llm_path lower cfg w user_message not_canned no_prefix key).
  cbv zeta. fold o1. rewrite H. fold ev1.
  unfold after_classification. rewrite Hy.
  rewrite run_from_bind, run_perform_search. cbv zeta. cbn [fst snd app].
  fold query. fold o2. fold ev2. fold rendering.
  assert (U : usable_results rendering = true).
  { unfold rendering. rewrite usable_search_text, Ho.
    destruct results; [contradiction|reflexivity]. }
  rewrite U, run_generate_contextual_response, key. cbv zeta.
  fold req. fold o3. rewrite He. fold ev3. cbn [fst snd app].
  rewrite run_generate_ai_response_http, key. reflexivity.
Qed.

End LlmPath.

Section ExplicitPath.

Variable lower : str -> str.
Variable cfg : config.
Variable w : world.

(** X11.  The search command with credentials set: unless the backend
    returns zero results, the text [perform_search] returned (the rendering,
    or the error text after a backend failure) is the grounding of one
    contextual completion request.  A non-empty completion is the reply, an
    empty one makes that text the reply, and a failed request leaves
    [generate_response] as an exception. *)
Theorem explicit_search_with_credentials (user_message : str) :
  is_canned lower user_message = false ->
  startswith (lit "search ") (lower user_message) = true ->
  has_api_key cfg = true ->
  let query := strip (skipn 7 user_message) in
  let o := w_ddgs_text w [] query (max_results_of cfg) in
  let ev := Ev_ddgs_text query (max_results_of cfg) o in
  let text := search_text cfg query o in
  let req := contextual_request cfg user_message text in
  let o2 := w_requests_post w [ev] req in
  o <> Returned [] ->
  run w (generate_response lower cfg user_message)
  = ([ev; Ev_requests_post req o2],
     match completion_text o2 with
     | Returned answer =>
         Returned (if truthy answer then answer else Some text)
     | Raised e => Raised e
     end).
Proof.
  intros Hc Hs K query o ev text req o2 Ho.
  rewrite (run_explicit_search lower cfg w user_message Hc Hs). cbv zeta.
  fold query. fold o. fold ev. fold text.
  assert (U : usable_results text = true).
  { unfold text. rewrite usable_search_text.
    destruct o as [[|h hs]|e]; [contradiction|reflexivity|reflexivity]. }
  rewrite U, run_generate_contextual_response, K. cbv zeta.
  fold req. fold o2. reflexivity.
Qed.

End ExplicitPath.

(* ================================================================== *)
(** ** Size and shape of cleaned snippets *)

Lemma sub_from_empty_length (ps : Re.pattern) (s : str) :
  forall skip, length (Re.sub_from ps [] skip s) <= length s.
Proof.
  induction s as [|c s IH]; intros skip; [reflexivity|].
  cbn [Re.sub_from]. destruct skip as [|n].
  - destruct (Re.match_len ps (c :: s)) as [[|n]|]; cbn [app length].
    + specialize (IH 0). lia.
    + specialize (IH n). lia.
    + specialize (IH 0). lia.
  - specialize (IH n). cbn [length]. lia.
Qed.

Lemma sub_from_empty_Forall (P : char -> Prop) (ps : Re.pattern) (s : str) :
  Forall P s -> forall skip, Forall P (Re.sub_from ps [] skip s).
Proof.
  induction 1 as [|c s Hc Hs IH]; intros skip; [constructor|].
  cbn [Re.sub_from]. destruct skip as [|n]; [|apply IH].
  destruct (Re.match_len ps (c :: s)) as [[|n]|]; cbn [app]; auto.
Qed.

Lemma collapse_length (s : str) :
  forall b, length (collapse b s) <= length s.
Proof.
  induction s as [|c s IH]; intros b; [reflexivity|].
  cbn [collapse]. destruct (is_space c); [destruct b|]; cbn [length].
  - specialize (IH true). lia.
  - specialize (IH true). lia.
  - specialize (IH false). lia.
Qed.

Lemma collapse_only_spaces (s : str) :
  forall b, Forall (fun c => is_space c = true -> c = 32%N) (collapse b s).
Proof.
  induction s as [|c s IH]; intros b; [constructor|].
  cbn [collapse]. destruct (is_space c) eqn:Sp; [destruct b|].
  - apply IH.
  - constructor; [reflexivity|apply IH].
  - constructor; [rewrite Sp; discriminate|apply IH].
Qed.

Lemma lstrip_length (s : str) : length (lstrip s) <= length s.
Proof.
  induction s as [|c s IH]; [reflexivity|].
  cbn [lstrip]. destruct (is_space c); cbn [length]; lia.
Qed.

Lemma strip_length (s : str) : length (strip s) <= length s.
Proof.
  unfold strip, rstrip. rewrite length_rev.
  pose proof (lstrip_length (rev (lstrip s))) as H1.
  pose proof (lstrip_length s) as H2.
  rewrite length_rev in H1. lia.
Qed.

Lemma clean_text_length (text : option str) :
  length (clean_text text) <= length (get text []).
Proof.
  destruct text as [s|]; [|reflexivity].
  rewrite clean_text_unfold.
  destruct s as [|c s]; [reflexivity|].
  rewrite normalize_spaces_collapse. unfold Re.sub.
  pose proof (sub_from_empty_length re_tag
                (Re.sub_from re_entity [] 0
                   (collapse false (strip (c :: s)))) 0) as H1.
  pose proof (sub_from_empty_length re_entity
                (collapse false (strip (c :: s))) 0) as H2.
  pose proof (collapse_length (strip (c :: s)) false) as H3.
  pose proof (strip_length (c :: s)) as H4.
  cbn [get]. lia.
Qed.

Lemma clean_text_only_spaces (text : option str) :
  Forall (fun c => is_space c = true -> c = 32%N) (clean_text text).
Proof.
  destruct text as [s|]; [|constructor].
  rewrite clean_text_unfold.
  destruct s as [|c s]; [constructor|].
  rewrite normalize_spaces_collapse. unfold Re.sub.
  apply sub_from_empty_Forall, sub_from_empty_Forall, collapse_only_spaces.
Qed.

(** X12.  [clean_text] never makes a text longer, and whatever whitespace
    it leaves is the plain space: the result holds no newline, tab or other
    blank, so a cleaned snippet stays on one line. *)
Theorem clean_text_shrinks_and_flattens (text : option str) :
  length (clean_text text) <= length (get text [])
  /\ Forall (fun c => is_space c = true -> c = 32%N) (clean_text text)
  /\ ~ In 10%N (clean_text text).
Proof.
  split; [apply clean_text_length|].
  pose proof (clean_text_only_spaces text) as A.
  split; [exact A|].
  intros Hin. rewrite Forall_forall in A.
  specialize (A _ Hin eq_refl). discriminate A.
Qed.

(* ================================================================== *)
(** ** When the rendering is not truncated *)

Lemma str_of_nat_one_digit (i : nat) :
  i < 10 -> length (str_of_nat i) = 1.
Proof.
  intros H.
  do 10 (destruct i as [|i]; [reflexivity|]). lia.
Qed.

Lemma slice_to_length {A : Type} (n : Z) (l : list A) :
  (0 <= n)%Z -> length (slice_to n l) <= Z.to_nat n.
Proof.
  intros H. unfold slice_to.
  destruct (Z.leb_spec 0 n); [|lia].
  rewrite length_firstn. lia.
Qed.

Lemma format_hit_length (sl : Z) (i : nat) (result : hit) :
  (0 <= sl)%Z -> i < 10 ->
  length (format_hit sl i result) <= 88 + Z.to_nat sl.
Proof.
  intros Hsl Hi. unfold format_hit.
  set (b := get (body result) (lit "No description")).
  set (t := get (title result) (lit "No title")).
  pose proof (clean_text_length (Some (slice_to sl b))) as C.
  cbn [get] in C.
  pose proof (@slice_to_length _ sl b Hsl) as S1.
  rewrite !length_app, (str_of_nat_one_digit Hi), length_firstn.
  change (length (lit ". ")) with 2. change (length nl) with 1.
  change (length (lit "...")) with 3.
  lia.
Qed.

Lemma format_hits_length (sl : Z) (results : list hit) :
  (0 <= sl)%Z ->
  forall i, i + length results <= 10 ->
  results <> [] ->
  length (join nl (format_hits sl i results)) + 1
  <= length results * (89 + Z.to_nat sl).
Proof.
  intros Hsl. induction results as [|r rs IH]; intros i Hi Hne;
    [contradiction|].
  cbn [length] in Hi.
  pose proof (@format_hit_length sl i r Hsl ltac:(lia)) as F.
  destruct rs as [|r' rs'].
  - cbn [format_hits join length]. lia.
  - specialize (IH (S i) ltac:(cbn [length] in *; lia) ltac:(discriminate)).
    change (join nl (format_hits sl i (r :: r' :: rs')))
      with (format_hit sl i r ++ nl
            ++ join nl (format_hits sl (S i) (r' :: rs'))).
    rewrite !length_app. change (length nl) with 1.
    set (k := 89 + Z.to_nat sl) in *.
    change (length (r :: r' :: rs')) with (S (length (r' :: rs'))).
    rewrite Nat.mul_succ_l. lia.
Qed.

Lemma raw_rendering_length (m sl : Z) (query : str) (results : list hit) :
  (0 <= m <= 9)%Z -> (0 <= sl)%Z ->
  length (raw_rendering m sl query results)
  <= 27 + length query + Z.to_nat m * (89 + Z.to_nat sl).
Proof.
  intros Hm Hsl. unfold raw_rendering.
  pose proof (@slice_to_length _ m results ltac:(lia)) as L.
  assert (Hh : length (results_header query) = 27 + length query).
  { unfold results_header. rewrite !length_app. cbn [length].
    change (length (lit " Search results for '")) with 21.
    change (length (lit "':")) with 2. change (length nl) with 1. lia. }
  assert (B : length (slice_to m results) * (89 + Z.to_nat sl)
              <= Z.to_nat m * (89 + Z.to_nat sl))
    by (apply Nat.mul_le_mono_r; exact L).
  destruct (slice_to m results) as [|r rs] eqn:E.
  - cbn [format_hits join]. lia.
  - pose proof (@format_hits_length sl (r :: rs) Hsl 1 ltac:(lia)
                  ltac:(discriminate)) as F.
    destruct (format_hits sl 1 (r :: rs)) as [|p ps] eqn:E2;
      [discriminate E2|].
    change (join nl (results_header query :: p :: ps))
      with (results_header query ++ nl ++ join nl (p :: ps)).
    rewrite !length_app. change (length nl) with 1. lia.
Qed.

(** X13.  With at most nine results configured and a non-negative snippet
    length, a rendering is returned whole, without the hint, whenever
    27 + len(query) + max_results * (89 + summary_length) is at most 1800:
    under the settings [load_search_config] falls back to (3 results, 200
    characters) that is every query of up to 906 characters. *)
Theorem rendering_not_truncated (cfg : config) (w : world) (query : str)
    (results : list hit) :
  (0 <= max_results_of cfg <= 9)%Z ->
  (0 <= summary_length_of cfg)%Z ->
  27 + length query
  + Z.to_nat (max_results_of cfg) * (89 + Z.to_nat (summary_length_of cfg))
  <= 1800 ->
  results <> [] ->
  w_ddgs_text w [] query (max_results_of cfg) = Returned results ->
  snd (run w (perform_search cfg query))
  = Returned (raw_rendering (max_results_of cfg) (summary_length_of cfg)
                query results).
Proof.
  intros Hm Hsl Hb Hne Ho.
  unfold run. rewrite run_perform_search. cbv zeta. rewrite Ho.
  destruct results as [|r rs]; [contradiction|].
  cbn [snd search_text]. unfold cap_response.
  pose proof (@raw_rendering_length (max_results_of cfg)
                (summary_length_of cfg) query (r :: rs) Hm Hsl) as L.
  destruct (Nat.ltb_spec 1800
              (length (raw_rendering (max_results_of cfg)
                         (summary_length_of cfg) query (r :: rs))));
    [lia|reflexivity].
Qed.

(* ================================================================== *)
(** ** What a suggested query can look like *)

(** The characters a match puts in group 1 belong to the class of a piece
    of the group. *)
Lemma star_group_class (G : char -> Prop)
    (p : char -> bool) (grouped : bool) (cont : str -> option (str * str)) :
  (forall c, grouped = true -> p c = true -> G c) ->
  (forall s r, cont s = Some r -> Forall G (fst r)) ->
  forall s r,
    Re.star p
      (fun c (r : str * str) =>
         if grouped then (c :: fst r, snd r) else r) cont s = Some r ->
    Forall G (fst r).
Proof.
  intros Hg Hc. induction s as [|c s IH]; intros r; cbn [Re.star].
  - apply Hc.
  - destruct (p c) eqn:Pc; [|apply Hc].
    destruct (Re.star p _ cont s) as [r'|] eqn:E; [|apply Hc].
    intros [= <-]. specialize (IH r' eq_refl).
    destruct grouped; cbn [fst]; [constructor; auto|exact IH].
Qed.

Lemma match_here_group_class (G : char -> Prop) (ps : Re.pattern) :
  (forall p c, In p ps -> Re.in_group p = true -> Re.cls p c = true -> G c) ->
  forall s r, Re.match_here ps s = Some r -> Forall G (fst r).
Proof.
  induction ps as [|p ps IH]; intros HG s r.
  - intros [= <-]. constructor.
  - assert (Hc : forall s r, Re.match_here ps s = Some r -> Forall G (fst r)).
    { apply IH. intros q c Hin. apply HG. now right. }
    assert (Hp : forall c, Re.in_group p = true -> Re.cls p c = true -> G c).
    { intros c. apply HG. now left. }
    assert (Hk : forall c (r' : str * str),
               Re.cls p c = true -> Forall G (fst r') ->
               Forall G (fst (if Re.in_group p
                              then (c :: fst r', snd r') else r'))).
    { intros c r' Pc Hr. destruct (Re.in_group p) eqn:Ig; cbn [fst];
        [constructor; auto|exact Hr]. }
    cbn [Re.match_here].
    destruct (Re.qnt p).
    + destruct s as [|c s]; [discriminate|].
      destruct (Re.cls p c) eqn:Pc; [|discriminate].
      destruct (Re.match_here ps s) as [r'|] eqn:E; [|discriminate].
      cbn [option_map]. intros [= <-]. apply Hk; eauto.
    + destruct s as [|c s]; [apply Hc|].
      destruct (Re.cls p c) eqn:Pc; [|apply Hc].
      destruct (Re.match_here ps s) as [r'|] eqn:E; [|apply Hc].
      intros [= <-]. apply Hk; eauto.
    + apply (@star_group_class G (Re.cls p) (Re.in_group p)
               (Re.match_here ps) Hp Hc).
    + destruct s as [|c s]; [discriminate|].
      destruct (Re.cls p c) eqn:Pc; [|discriminate].
      destruct (Re.star (Re.cls p) _ (Re.match_here ps) s) as [r'|] eqn:E;
        [|discriminate].
      cbn [option_map]. intros [= <-]. apply Hk; [exact Pc|].
      apply (@star_group_class G (Re.cls p) (Re.in_group p)
               (Re.match_here ps) Hp Hc s r' E).
Qed.

Lemma search_group_class (G : char -> Prop) (ps : Re.pattern) :
  (forall p c, In p ps -> Re.in_group p = true -> Re.cls p c = true -> G c) ->
  forall s g, Re.search ps s = Some g -> Forall G g.
Proof.
  intros HG. induction s as [|c s IH]; intros g; cbn [Re.search].
  - destruct (Re.match_here ps []) as [r|] eqn:E; [|discriminate].
    intros [= <-]. now apply (@match_here_group_class G ps HG [] r).
  - destruct (Re.match_here ps (c :: s)) as [r|] eqn:E; [|apply IH].
    intros [= <-]. now apply (@match_here_group_class G ps HG (c :: s) r).
Qed.

Lemma strip_idempotent (s : str) : strip (strip s) = strip s.
Proof.
  destruct (head_ok_strip s) as [H1 H2]. now apply strip_fixed.
Qed.

(** X14.  The query [extract_search_query] returns is either the user
    message itself, or a non-empty text taken from the classifier's answer
    that has no blank at either end and holds no double quote, apostrophe,
    full stop or newline.  In particular it is never empty when the
    message is not. *)
Theorem extracted_query_shape (analysis_response : option str)
    (user_message : str) :
  let query := extract_search_query analysis_response user_message in
  (query = user_message
   \/ (query <> []
       /\ strip query = query
       /\ Forall (fun c => c <> 34 /\ c <> 39 /\ c <> 46 /\ c <> 10)%N query))
  /\ (user_message <> [] -> query <> []).
Proof.
  cbv zeta.
  assert (A : extract_search_query analysis_response user_message
              = user_message
              \/ (extract_search_query analysis_response user_message <> []
                  /\ strip (extract_search_query analysis_response
                              user_message)
                     = extract_search_query analysis_response user_message
                  /\ Forall (fun c => c <> 34 /\ c <> 39 /\ c <> 46
                                      /\ c <> 10)%N
                       (extract_search_query analysis_response
                          user_message))).
  { destruct analysis_response as [response|]; [|left; reflexivity].
    rewrite extract_search_query_unfold.
    destruct response as [|c0 s0]; [left; reflexivity|].
    destruct (Re.search re_suggested_query (c0 :: s0)) as [g|] eqn:E;
      [|left; reflexivity].
    destruct (strip g) as [|c1 s1] eqn:Sg; [left; reflexivity|].
    right. cbn [truthy]. rewrite <- Sg.
    split; [rewrite Sg; discriminate|].
    split; [apply strip_idempotent|].
    apply Forall_strip.
    apply (@search_group_class
             (fun c => c <> 34 /\ c <> 39 /\ c <> 46 /\ c <> 10)%N
             re_suggested_query) with (s := c0 :: s0); [|exact E].
    intros p c Hin Ig Pc.
    unfold re_suggested_query, Re.text_i in Hin.
    cbn [lit List.map list_ascii_of_string app In] in Hin.
    repeat (destruct Hin as [<-|Hin]; [try discriminate Ig|]);
      [|contradiction].
    cbn [Re.cls] in Pc. unfold query_class, Re.not_in in Pc.
    cbn [existsb] in Pc.
    apply negb_true_iff in Pc.
    repeat (apply orb_false_iff in Pc as [?%N.eqb_neq Pc]).
    auto. }
  split; [exact A|].
  intros Hne. destruct A as [->|[A _]]; assumption.
Qed.

(* ================================================================== *)
(** ** Running webhook programs *)

Section WebhookLaws.

Variable lw : line_world.

Lemma wrun_from_wbind {A B : Type} (p : webhook A) (f : A -> webhook B) :
  forall past,
    wrun_from lw past (wbind p f) =
    match snd (wrun_from lw past p) with
    | Done a =>
        (fst (wrun_from lw past p)
           ++ fst (wrun_from lw (past ++ fst (wrun_from lw past p)) (f a)),
         snd (wrun_from lw (past ++ fst (wrun_from lw past p)) (f a)))
    | Failed e => (fst (wrun_from lw past p), Failed e)
    end.
Proof.
  induction p as [a|e|q k IH|t x k IH|b s k IH]; intros past; simpl.
  - rewrite app_nil_r. now destruct (wrun_from lw past (f a)).
  - reflexivity.
  - rewrite IH. destruct (snd (wrun_from lw _ (k _))); simpl; [|reflexivity].
    now rewrite <- !app_assoc.
  - rewrite IH. destruct (snd (wrun_from lw _ (k _))); simpl; [|reflexivity].
    now rewrite <- app_assoc.
  - rewrite IH. destruct (snd (wrun_from lw _ (k _))); simpl; [|reflexivity].
    now rewrite <- app_assoc.
Qed.

Lemma wrun_from_wtry {A : Type} (p : webhook A) (h : line_exn -> webhook A) :
  forall past,
    wrun_from lw past (wtry p h) =
    match snd (wrun_from lw past p) with
    | Done a => (fst (wrun_from lw past p), Done a)
    | Failed e =>
        (fst (wrun_from lw past p)
           ++ fst (wrun_from lw (past ++ fst (wrun_from lw past p)) (h e)),
         snd (wrun_from lw (past ++ fst (wrun_from lw past p)) (h e)))
    end.
Proof.
  induction p as [a|e|q k IH|t x k IH|b s k IH]; intros past; simpl.
  - reflexivity.
  - rewrite app_nil_r. now destruct (wrun_from lw past (h e)).
  - rewrite IH. destruct (snd (wrun_from lw _ (k _))); simpl; [reflexivity|].
    now rewrite <- !app_assoc.
  - rewrite IH. destruct (snd (wrun_from lw _ (k _))); simpl; [reflexivity|].
    now rewrite <- app_assoc.
  - rewrite IH. destruct (snd (wrun_from lw _ (k _))); simpl; [reflexivity|].
    now rewrite <- app_assoc.
Qed.

Lemma wrun_reply_message (token : str) (text : option str)
    (past : list line_event) :
  wrun_from lw past (reply_message token text) =
  ([Ev_reply_message token text (lw_reply_message lw past token text)],
   match lw_reply_message lw past token text with
   | Done _ => Done tt
   | Failed e => Failed e
   end).
Proof.
  unfold reply_message. simpl.
  now destruct (lw_reply_message lw past token text) as [[]|e].
Qed.

Lemma wrun_handler_handle (body signature : option str)
    (past : list line_event) :
  wrun_from lw past (handler_handle body signature) =
  ([Ev_handler_handle body signature
      (lw_handler_handle lw past body signature)],
   match lw_handler_handle lw past body signature with
   | Done _ => Done tt
   | Failed e => Failed e
   end).
Proof.
  unfold handler_handle. simpl.
  now destruct (lw_handler_handle lw past body signature) as [[]|e].
Qed.

Lemma wrun_generate (p : prog (option str)) :
  wrun_from lw [] (generate p) =
  (List.map In_pipeline (fst (run (lw_world lw) p)),
   match snd (run (lw_world lw) p) with
   | Returned v => Done v
   | Raised e => Failed (PipelineError e)
   end).
Proof.
  unfold generate, run. cbn [wrun_from flat_map app].
  destruct (snd (run_from (lw_world lw) [] p)); cbn [wrun_from fst snd];
    now rewrite app_nil_r.
Qed.

End WebhookLaws.

Lemma eqb_str_true (a b : str) : eqb_str a b = true <-> a = b.
Proof.
  unfold eqb_str. destruct (list_eq_dec N.eq_dec a b); split; auto.
  discriminate.
Qed.

(* ================================================================== *)
(** ** Signature validation and the Lambda entry point *)

Section Gateway.

Variable encode_utf8 : str -> option (list N).
Variable hmac_sha256_base64 : list N -> list N -> str.
Variable lc : line_config.
Variable lw : line_world.

Local Notation "'validate'" :=
  (validate_signature encode_utf8 hmac_sha256_base64 lc).
Local Notation "'handler'" :=
  (lambda_handler encode_utf8 hmac_sha256_base64 lc).

(** X15.  [validate_signature] accepts exactly when the channel secret and
    the signature are both present and non-empty, the body and the secret
    can be encoded, and the signature is, character for character, the
    ASCII text of the base64 HMAC-SHA256 of the body under the secret.  An
    absent body counts as the empty body.  In every other case, failures
    of the encoding or of the comparison included, the answer is False. *)
Theorem validate_signature_accepts_iff (body signature : option str) :
  validate body signature = true <->
  exists secret sig key body_bytes,
    CHANNEL_SECRET lc = Some secret /\ secret <> []
    /\ signature = Some sig /\ sig <> []
    /\ encode_utf8 secret = Some key
    /\ match body with
       | Some text => encode_utf8 text
       | None => Some []
       end = Some body_bytes
    /\ sig = hmac_sha256_base64 key body_bytes
    /\ is_ascii sig = true.
Proof.
  unfold validate_signature, compare_digest. split.
  - destruct (CHANNEL_SECRET lc) as [[|c0 secret]|]; try discriminate.
    destruct signature as [[|c1 sig]|]; try discriminate.
    cbn [truthy negb orb get].
    destruct (match body with
              | Some text => encode_utf8 text
              | None => Some []
              end) as [body_bytes|] eqn:Eb; [|discriminate].
    destruct (encode_utf8 (c0 :: secret)) as [key|] eqn:Ek; [|discriminate].
    destruct (is_ascii (c1 :: sig)) eqn:A1; [|discriminate].
    destruct (is_ascii (hmac_sha256_base64 key body_bytes)); [|discriminate].
    cbn [andb]. intros E%eqb_str_true.
    exists (c0 :: secret), (c1 :: sig), key, body_bytes.
    repeat split; try discriminate; try reflexivity; assumption.
  - intros (secret & sig & key & body_bytes
            & -> & Hs & -> & Hg & Ek & Eb & E & A).
    destruct secret as [|c0 secret]; [contradiction|].
    destruct sig as [|c1 sig]; [contradiction|].
    cbn [truthy negb orb get]. rewrite Eb, Ek, <- E, A. cbn [andb].
    now apply eqb_str_true.
Qed.

Lemma handler_when_rejected (event : gateway_event) (items : list (str * str)) :
  is_health_request event = false ->
  get_or (headers event) [] = Some items ->
  ENABLE_SIGNATURE_VALIDATION lc = true ->
  validate (get_or (event_body event) []) (signature_header items) = false ->
  wrun lw (handler event) = ([], Done invalid_signature_response).
Proof.
  intros Hh Hi He Hv. unfold wrun, lambda_handler.
  rewrite Hh, Hi, He, Hv. reflexivity.
Qed.

Lemma handler_when_passed (event : gateway_event) (items : list (str * str)) :
  is_health_request event = false ->
  get_or (headers event) [] = Some items ->
  ENABLE_SIGNATURE_VALIDATION lc
  && negb (validate (get_or (event_body event) []) (signature_header items))
  = false ->
  let body := get_or (event_body event) [] in
  let signature := signature_header items in
  let o := lw_handler_handle lw [] body signature in
  wrun lw (handler event)
  = ([Ev_handler_handle body signature o],
     Done match o with
          | Done _ => ok_response
          | Failed InvalidSignatureError => invalid_signature_response
          | Failed LineBotApiError => line_api_error_response
          | Failed _ => internal_error_response
          end).
Proof.
  intros Hh Hi Hv body signature o. unfold wrun, lambda_handler.
  rewrite Hh, Hi, Hv.
  rewrite wrun_from_wtry, wrun_from_wbind, wrun_handler_handle.
  fold body. fold signature. fold o.
  cbn [fst snd]. destruct o as [[]|[e| | | |]]; reflexivity.
Qed.

(** X16.  [lambda_handler] never raises: every event and every behaviour
    of the SDK give a response whose status is 200, 403 or 500, and
    [handler.handle] is called at most once and nothing else is. *)
Theorem lambda_handler_always_responds (event : gateway_event) :
  exists response,
    snd (wrun lw (handler event)) = Done response
    /\ (statusCode response = 200 \/ statusCode response = 403
        \/ statusCode response = 500)%Z
    /\ (fst (wrun lw (handler event)) = []
        \/ exists body signature o,
             fst (wrun lw (handler event))
             = [Ev_handler_handle body signature o]).
Proof.
  destruct (is_health_request event) eqn:Hh.
  - unfold wrun, lambda_handler. rewrite Hh.
    eexists. split; [reflexivity|]. split; [now left|now left].
  - destruct (get_or (headers event) []) as [items|] eqn:Hi.
    + destruct (ENABLE_SIGNATURE_VALIDATION lc
                && negb (validate (get_or (event_body event) [])
                           (signature_header items))) eqn:Hv.
      * apply andb_true_iff in Hv as [He Hv]. apply negb_true_iff in Hv.
        rewrite (handler_when_rejected event Hh Hi He Hv).
        eexists. split; [reflexivity|]. split; [right; now left|now left].
      * rewrite (handler_when_passed event Hh Hi Hv). cbv zeta.
        eexists. split; [reflexivity|]. split.
        -- destruct (lw_handler_handle lw [] _ _) as [[]|[e| | | |]];
             cbn; auto.
        -- right. eexists _, _, _. reflexivity.
    + unfold wrun, lambda_handler. rewrite Hh, Hi.
      eexists. split; [reflexivity|]. split; [right; now right|now left].
Qed.

(** X17.  A GET on /health is answered 200 with the healthy body before
    anything else is looked at: no signature is needed and the SDK is not
    called, whatever the body, the headers and the configuration. *)
Theorem health_check_needs_no_signature (event : gateway_event) :
  httpMethod event = Present (lit "GET") ->
  path event = Present (lit "/health") ->
  wrun lw (handler event) = ([], Done health_check)
  /\ statusCode health_check = 200%Z.
Proof.
  intros Hm Hp. unfold wrun, lambda_handler, is_health_request.
  rewrite Hm, Hp. split; reflexivity.
Qed.

(** X18.  With validation enabled, a request that is no health check and
    whose signature [validate_signature] rejects is answered 403 and never
    reaches [handler.handle]; so is every such request when the channel
    secret is not set or when it carries no signature header.  [items] are
    the headers as [event.get('headers', {})] reads them: those of the
    event, or none when the event has no headers entry. *)
Theorem rejected_signature_is_403 (event : gateway_event)
    (items : list (str * str)) :
  is_health_request event = false ->
  get_or (headers event) [] = Some items ->
  ENABLE_SIGNATURE_VALIDATION lc = true ->
  (validate (get_or (event_body event) []) (signature_header items) = false
   \/ truthy (CHANNEL_SECRET lc) = false
   \/ (lookup (lit "X-Line-Signature") items = None
       /\ lookup (lit "x-line-signature") items = None)) ->
  wrun lw (handler event) = ([], Done invalid_signature_response)
  /\ statusCode invalid_signature_response = 403%Z.
Proof.
  intros Hh Hi He Hv. split; [|reflexivity].
  apply (@handler_when_rejected event items Hh Hi He).
  destruct Hv as [Hv|[Hs|[H1 H2]]]; [exact Hv| |].
  - unfold validate_signature. now rewrite Hs.
  - unfold validate_signature, signature_header. rewrite H1, H2.
    cbn [truthy get negb]. now rewrite orb_true_r.
Qed.

(** X19.  A request that is no health check and passes the gate (validation
    disabled, or signature accepted) is handed to [handler.handle] once,
    with the body and the signature header as read; the status is 200 when
    that call returns, 403 on InvalidSignatureError, 500 on every other
    exception.  A request without a headers entry is read as one with no
    header, and its signature as the empty string. *)
Theorem accepted_request_status (event : gateway_event)
    (items : list (str * str)) :
  is_health_request event = false ->
  get_or (headers event) [] = Some items ->
  (ENABLE_SIGNATURE_VALIDATION lc = false
   \/ validate (get_or (event_body event) []) (signature_header items)
      = true) ->
  let body := get_or (event_body event) [] in
  let signature := signature_header items in
  let o := lw_handler_handle lw [] body signature in
  exists response,
    wrun lw (handler event)
    = ([Ev_handler_handle body signature o], Done response)
    /\ (statusCode response = 200%Z <-> exists u, o = Done u)
    /\ (statusCode response = 403%Z <-> o = Failed InvalidSignatureError)
    /\ (statusCode response = 500%Z <->
        exists e, o = Failed e /\ e <> InvalidSignatureError).
Proof.
  intros Hh Hi Hv body signature o.
  assert (G : ENABLE_SIGNATURE_VALIDATION lc
              && negb (validate (get_or (event_body event) [])
                         (signature_header items)) = false).
  { destruct Hv as [->| ->]; [reflexivity|apply andb_false_r]. }
  rewrite (@handler_when_passed event items Hh Hi G).
  cbv zeta. fold body. fold signature. fold o.
  eexists. split; [reflexivity|].
  destruct o as [[]|[e| | | |]]; cbn [statusCode ok_response
    invalid_signature_response line_api_error_response
    internal_error_response];
    repeat split; try discriminate; try (intros [? ?]; discriminate);
    try (intros _; eexists; reflexivity);
    try (intros [? [[= <-] ?]]; congruence);
    try (intros [? [? ?]]; discriminate);
    try (intros _; eexists; split; [reflexivity|discriminate]);
    try reflexivity.
Qed.

(** X20.  A request that is no health check and whose headers entry is
    null is answered 500 (the lookup of the signature header raises), and
    [handler.handle] is not called, validation enabled or not. *)
Theorem null_headers_is_500 (event : gateway_event) :
  is_health_request event = false ->
  headers event = Null ->
  wrun lw (handler event) = ([], Done internal_error_response)
  /\ statusCode internal_error_response = 500%Z.
Proof.
  intros Hh Hi. unfold wrun, lambda_handler. rewrite Hh, Hi.
  split; reflexivity.
Qed.

End Gateway.

(* ================================================================== *)
(** ** The message handler *)

Section MessageHandler.

Variable lc : line_config.
Variable lower : str -> str.
Variable cfg : config.
Variable lw : line_world.
Variable event : message_event.

Local Notation "'handle'" := (handle_text_message lc lower cfg event).
Local Notation "'pipeline'" :=
  (run (lw_world lw) (generate_response lower cfg (message_text event))).
Local Notation "'pipeline_calls'" := (List.map In_pipeline (fst pipeline)).

(** The run of the handler when the LINE client is set up. *)
Lemma wrun_handle_text_message :
  truthy (CHANNEL_ACCESS_TOKEN lc) = true ->
  wrun lw handle =
  let token := reply_token event in
  match snd pipeline with
  | Returned response =>
      let o := lw_reply_message lw pipeline_calls token response in
      let ev := Ev_reply_message token response o in
      match o with
      | Done _ => (pipeline_calls ++ [ev], Done tt)
      | Failed _ =>
          (pipeline_calls
             ++ [ev; Ev_reply_message token (Some apology_text)
                       (lw_reply_message lw (pipeline_calls ++ [ev]) token
                          (Some apology_text))],
           Done tt)
      end
  | Raised _ =>
      (pipeline_calls
         ++ [Ev_reply_message token (Some apology_text)
               (lw_reply_message lw pipeline_calls token (Some apology_text))],
       Done tt)
  end.
Proof.
  intros T. unfold wrun, handle_text_message. rewrite T. cbn [negb].
  rewrite wrun_from_wtry, wrun_from_wbind, wrun_generate.
  cbv zeta. cbn [fst snd app].
  destruct (snd pipeline) as [response|e].
  - rewrite wrun_reply_message. cbn [fst snd].
    destruct (lw_reply_message lw pipeline_calls (reply_token event) response)
      as [[]|e] eqn:O.
    + reflexivity.
    + rewrite wrun_from_wtry, wrun_reply_message. cbn [fst snd].
      rewrite <- app_assoc. cbn [app].
      destruct (lw_reply_message lw _ (reply_token event) (Some apology_text))
        as [[]|e']; cbn [fst snd wrun_from]; rewrite ?app_nil_r; reflexivity.
  - cbn [fst snd].
    rewrite wrun_from_wtry, wrun_reply_message. cbn [fst snd].
    destruct (lw_reply_message lw _ (reply_token event) (Some apology_text))
      as [[]|e']; cbn [fst snd wrun_from]; rewrite ?app_nil_r; reflexivity.
Qed.

(** X21.  [handle_text_message] never raises, whatever the pipeline and
    the LINE API do; it sends at most two replies, always on the reply
    token of the event; and without a channel access token it calls
    nothing at all, not even the reply pipeline. *)
Theorem handle_text_message_never_raises :
  snd (wrun lw handle) = Done tt
  /\ length (filter is_reply (fst (wrun lw handle))) <= 2
  /\ (forall token text o,
        In (Ev_reply_message token text o) (fst (wrun lw handle)) ->
        token = reply_token event)
  /\ (truthy (CHANNEL_ACCESS_TOKEN lc) = false -> fst (wrun lw handle) = []).
Proof.
  destruct (truthy (CHANNEL_ACCESS_TOKEN lc)) eqn:T.
  - rewrite (wrun_handle_text_message T). cbv zeta.
    assert (F : filter is_reply pipeline_calls = []).
    { induction (fst pipeline) as [|ev l IH]; [reflexivity|exact IH]. }
    assert (N : forall token text o,
               ~ In (Ev_reply_message token text o) pipeline_calls).
    { intros token text o Hin. apply in_map_iff in Hin as (x & Hx & _).
      discriminate Hx. }
    destruct (snd pipeline) as [response|e].
    + destruct (lw_reply_message lw pipeline_calls (reply_token event)
                  response) as [[]|e];
        cbn [fst snd]; rewrite filter_app, F; cbn;
        (split; [reflexivity|]); (split; [lia|]);
        (split; [|discriminate]);
        intros token text o Hin; apply in_app_or in Hin as [Hin|Hin];
        try (now apply N in Hin);
        cbn in Hin; intuition congruence.
    + cbn [fst snd]. rewrite filter_app, F. cbn.
      split; [reflexivity|]. split; [lia|]. split; [|discriminate].
      intros token text o Hin. apply in_app_or in Hin as [Hin|Hin];
        [now apply N in Hin|].
      cbn in Hin. intuition congruence.
  - unfold wrun, handle_text_message. rewrite T. cbn.
    repeat split; try lia; try contradiction.
Qed.

(** X22.  When [generate_response] returns, its value, whatever it is, is
    sent as the one reply; only if that reply fails is the fixed apology
    sent as a second reply. *)
Theorem reply_carries_the_generated_response (response : option str) :
  truthy (CHANNEL_ACCESS_TOKEN lc) = true ->
  snd pipeline = Returned response ->
  let token := reply_token event in
  let o := lw_reply_message lw pipeline_calls token response in
  let ev := Ev_reply_message token response o in
  (forall u, o = Done u -> fst (wrun lw handle) = pipeline_calls ++ [ev])
  /\ (forall e,
        o = Failed e ->
        exists o2,
          fst (wrun lw handle)
          = pipeline_calls
            ++ [ev; Ev_reply_message token (Some apology_text) o2]).
Proof.
  intros T H token o ev.
  rewrite (wrun_handle_text_message T). cbv zeta. rewrite H.
  fold token. fold o. fold ev. split.
  - intros u ->. reflexivity.
  - intros e ->. eexists. reflexivity.
Qed.

(** X23.  When [generate_response] raises, the exception stops here: the
    one reply sent is the fixed apology, and the handler returns. *)
Theorem pipeline_exception_becomes_apology (e : exn) :
  truthy (CHANNEL_ACCESS_TOKEN lc) = true ->
  snd pipeline = Raised e ->
  exists o,
    wrun lw handle
    = (pipeline_calls
         ++ [Ev_reply_message (reply_token event)
               (Some (lit "Sorry, I encountered an error. Please try again."))
               o],
       Done tt).
Proof.
  intros T H. rewrite (wrun_handle_text_message T). cbv zeta. rewrite H.
  eexists. reflexivity.
Qed.

End MessageHandler.

(* ================================================================== *)
(** ** The further properties at concrete inputs *)

Import WebhookExamples.

(** X2 at a search command without credentials. *)
Lemma no_credentials_no_completion_call_witness :
  has_api_key cfg_no_key = false
  /\ existsb is_completion
       (fst (run world_no_completion
               (generate_response ascii_lower cfg_no_key (lit "search cats"))))
     = false.
Proof.
  split; [reflexivity|].
  apply (@no_credentials_no_completion_call ascii_lower cfg_no_key
           world_no_completion (lit "search cats") eq_refl).
Defined.

(** X3 at a plain question. *)
Lemma fallback_echo_without_credentials_witness :
  is_canned ascii_lower (lit "what is rust") = false
  /\ startswith (lit "search ") (ascii_lower (lit "what is rust")) = false
  /\ has_api_key cfg_no_key = false
  /\ run world_no_completion
       (generate_response ascii_lower cfg_no_key (lit "what is rust"))
     = ([], Returned (Some (technical_issues_text (lit "what is rust")))).
Proof.
  repeat (split; [reflexivity|]).
  apply (@fallback_echo_without_credentials ascii_lower cfg_no_key
           world_no_completion (lit "what is rust") eq_refl eq_refl eq_refl).
Defined.

(** X4 at a search command that holds hi inside a word. *)
Lemma canned_reply_makes_no_search_or_completion_witness :
  is_canned ascii_lower (lit "search hiking trails") = true
  /\ startswith (lit "search ") (ascii_lower (lit "search hiking trails"))
     = true
  /\ existsb is_search
       (fst (run world_no_completion
               (generate_response ascii_lower cfg_key
                  (lit "search hiking trails"))))
     = false.
Proof.
  split; [reflexivity|]. split; [reflexivity|].
  apply (@canned_reply_makes_no_search_or_completion ascii_lower cfg_key
           world_no_completion (lit "search hiking trails") eq_refl).
Defined.

(** X5 at a message with both help and time. *)
Lemma help_then_time_witness :
  contains (lit "hello") (ascii_lower (lit "Help, what time is it"))
  || contains (lit "hi") (ascii_lower (lit "Help, what time is it")) = false
  /\ run world_no_completion
       (generate_response ascii_lower cfg_key (lit "Help, what time is it"))
     = ([], Returned (Some help_text)).
Proof.
  split; [reflexivity|].
  apply (@help_then_time ascii_lower cfg_key world_no_completion
           (lit "Help, what time is it") eq_refl).
  reflexivity.
Defined.

(** X7 at an unreachable completion endpoint. *)
Lemma classifier_failure_goes_to_direct_answer_witness :
  is_canned ascii_lower (lit "latest news") = false
  /\ startswith (lit "search ") (ascii_lower (lit "latest news")) = false
  /\ has_api_key cfg_key = true
  /\ snd (run world_no_completion
            (generate_response ascii_lower cfg_key (lit "latest news")))
     = Raised ConnectionError
  /\ length (fst (run world_no_completion
                    (generate_response ascii_lower cfg_key
                       (lit "latest news"))))
     = 2.
Proof.
  repeat (split; [reflexivity|]).
  rewrite (@classifier_failure_goes_to_direct_answer ascii_lower cfg_key
             world_no_completion (lit "latest news")
             eq_refl eq_refl eq_refl ConnectionError eq_refl).
  split; reflexivity.
Defined.

(** X8 at a classification that says no. *)
Lemma no_search_goes_to_direct_answer_witness :
  should_search (Some (lit "<search>NO</search> General knowledge."))
  = false
  /\ run (world_replying (lit "<search>NO</search> General knowledge. "))
       (generate_response ascii_lower cfg_key (lit "what is rust"))
     = ([Ev_requests_post (classify_request cfg_key (lit "what is rust"))
           (ok_reply (lit "<search>NO</search> General knowledge. "));
         Ev_requests_post (direct_request cfg_key (lit "what is rust"))
           (ok_reply (lit "<search>NO</search> General knowledge. "))],
        Returned (Some (lit "<search>NO</search> General knowledge."))).
Proof.
  split; [reflexivity|].
  destruct (@no_search_goes_to_direct_answer ascii_lower cfg_key
              (world_replying (lit "<search>NO</search> General knowledge. "))
              (lit "what is rust") eq_refl eq_refl eq_refl
              (Some (lit "<search>NO</search> General knowledge."))
              eq_refl eq_refl) as (_ & H & _).
  apply H. reflexivity.
Defined.

(** X9 at a classification that asks for a search, one result, and a
    completion. *)
Lemma search_then_contextual_reply_witness :
  let w := world_classifying (ok_reply (lit "<search>YES</search>"))
             (ok_reply (lit "Cats purr.")) (Returned [one_hit]) in
  should_search (Some (lit "<search>YES</search>")) = true
  /\ snd (run w (generate_response ascii_lower cfg_key (lit "latest news")))
     = Returned (Some (lit "Cats purr."))
  /\ length (fst (run w (generate_response ascii_lower cfg_key
                           (lit "latest news"))))
     = 3.
Proof.
  split; [reflexivity|].
  rewrite (@search_then_contextual_reply ascii_lower cfg_key
             (world_classifying (ok_reply (lit "<search>YES</search>"))
                (ok_reply (lit "Cats purr.")) (Returned [one_hit]))
             (lit "latest news") eq_refl eq_refl eq_refl
             (lit "<search>YES</search>") [one_hit] eq_refl eq_refl
             eq_refl ltac:(discriminate) (Some (lit "Cats purr.")) eq_refl).
  split; reflexivity.
Defined.

(** X10 at the same classification with every later completion failing:
    four calls, and the exception of the last one. *)
Lemma contextual_failure_goes_to_direct_answer_witness :
  let w := world_classifying (ok_reply (lit "<search>YES</search>"))
             (Raised ConnectionError) (Returned [one_hit]) in
  snd (run w (generate_response ascii_lower cfg_key (lit "latest news")))
  = Raised ConnectionError
  /\ List.map is_search
       (fst (run w (generate_response ascii_lower cfg_key
                      (lit "latest news"))))
     = [false; true; false; false].
Proof.
  cbv zeta.
  rewrite (@contextual_failure_goes_to_direct_answer ascii_lower cfg_key
             (world_classifying (ok_reply (lit "<search>YES</search>"))
                (Raised ConnectionError) (Returned [one_hit]))
             (lit "latest news") eq_refl eq_refl eq_refl
             (lit "<search>YES</search>") [one_hit] ConnectionError
             eq_refl eq_refl eq_refl ltac:(discriminate) eq_refl).
  split; reflexivity.
Defined.

(** X11 at a search command answered by a completion. *)
Lemma explicit_search_with_credentials_witness :
  is_canned ascii_lower (lit "search cats") = false
  /\ startswith (lit "search ") (ascii_lower (lit "search cats")) = true
  /\ has_api_key cfg_key = true
  /\ snd (run (world_replying (lit " Cats purr. "))
            (generate_response ascii_lower cfg_key (lit "search cats")))
     = Returned (Some (lit "Cats purr.")).
Proof.
  repeat (split; [reflexivity|]).
  rewrite (@explicit_search_with_credentials ascii_lower cfg_key
             (world_replying (lit " Cats purr. ")) (lit "search cats")
             eq_refl eq_refl eq_refl ltac:(discriminate)).
  reflexivity.
Defined.

(** X13 at the fallback settings and a short query. *)
Lemma rendering_not_truncated_witness :
  (0 <= max_results_of cfg_key <= 9)%Z
  /\ (0 <= summary_length_of cfg_key)%Z
  /\ 27 + 906
     + Z.to_nat (max_results_of cfg_key)
       * (89 + Z.to_nat (summary_length_of cfg_key)) <= 1800
  /\ snd (run world_no_completion (perform_search cfg_key (lit "cats")))
     = Returned (raw_rendering 3 200 (lit "cats") [one_hit]).
Proof.
  split; [vm_compute; split; discriminate|].
  split; [vm_compute; discriminate|].
  split; [vm_compute; lia|].
  apply (@rendering_not_truncated cfg_key world_no_completion (lit "cats")
           [one_hit]).
  - vm_compute. split; discriminate.
  - vm_compute. discriminate.
  - vm_compute. lia.
  - discriminate.
  - reflexivity.
Defined.

(** X17 at a health request with null body and headers, secret set. *)
Lemma health_check_needs_no_signature_witness :
  wrun (line_world_failing world_no_completion)
    (lambda_handler ascii_encode toy_mac lc_validating health_event)
  = ([], Done health_check).
Proof.
  apply (@health_check_needs_no_signature ascii_encode toy_mac lc_validating
           (line_world_failing world_no_completion) health_event
           eq_refl eq_refl).
Defined.

(** X18 at a signed request when no channel secret is configured, and at
    a request with no headers entry when one is. *)
Lemma rejected_signature_is_403_witness :
  let items := [(lit "x-line-signature", lit "mac8")] in
  is_health_request (post_event (Present items)) = false
  /\ truthy (CHANNEL_SECRET lc_no_secret) = false
  /\ wrun (line_world_ok world_no_completion)
       (lambda_handler ascii_encode toy_mac lc_no_secret
          (post_event (Present items)))
     = ([], Done invalid_signature_response)
  /\ get_or (headers (post_event Missing)) [] = Some []
  /\ wrun (line_world_ok world_no_completion)
       (lambda_handler ascii_encode toy_mac lc_validating
          (post_event Missing))
     = ([], Done invalid_signature_response).
Proof.
  split; [reflexivity|]. split; [reflexivity|]. split; [|split].
  - apply (@rejected_signature_is_403 ascii_encode toy_mac lc_no_secret
             (line_world_ok world_no_completion)
             (post_event (Present [(lit "x-line-signature", lit "mac8")]))
             [(lit "x-line-signature", lit "mac8")]
             eq_refl eq_refl eq_refl).
    right. left. reflexivity.
  - reflexivity.
  - apply (@rejected_signature_is_403 ascii_encode toy_mac lc_validating
             (line_world_ok world_no_completion)
             (post_event Missing) [] eq_refl eq_refl eq_refl).
    right. right. split; reflexivity.
Defined.

(** X19 at a request whose signature is the expected one, and at a request
    with no headers entry when validation is disabled. *)
Lemma accepted_request_status_witness :
  let items := [(lit "x-line-signature", lit "mac8")] in
  validate_signature ascii_encode toy_mac lc_validating
    (Some (lit "{}")) (signature_header items) = true
  /\ (exists response,
        wrun (line_world_ok world_no_completion)
          (lambda_handler ascii_encode toy_mac lc_validating
             (post_event (Present items)))
        = ([Ev_handler_handle (Some (lit "{}")) (Some (lit "mac8")) (Done tt)],
           Done response)
        /\ statusCode response = 200%Z)
  /\ ENABLE_SIGNATURE_VALIDATION lc_not_validating = false
  /\ (exists response,
        wrun (line_world_failing world_no_completion)
          (lambda_handler ascii_encode toy_mac lc_not_validating
             (post_event Missing))
        = ([Ev_handler_handle (Some (lit "{}")) (Some [])
              (Failed LineBotApiError)],
           Done response)
        /\ statusCode response = 500%Z).
Proof.
  split; [reflexivity|]. split; [|split; [reflexivity|]].
  - destruct (@accepted_request_status ascii_encode toy_mac lc_validating
                (line_world_ok world_no_completion)
                (post_event (Present [(lit "x-line-signature", lit "mac8")]))
                [(lit "x-line-signature", lit "mac8")]
                eq_refl eq_refl (or_intror eq_refl))
      as (response & E & H200 & _).
    exists response. split; [exact E|].
    apply H200. exists tt. reflexivity.
  - destruct (@accepted_request_status ascii_encode toy_mac lc_not_validating
                (line_world_failing world_no_completion)
                (post_event Missing) [] eq_refl eq_refl (or_introl eq_refl))
      as (response & E & _ & _ & H500).
    exists response. split; [exact E|].
    apply H500. exists LineBotApiError. split; [reflexivity|discriminate].
Defined.

(** X20 at a POST whose headers entry is null, validation disabled. *)
Lemma null_headers_is_500_witness :
  is_health_request (post_event Null) = false
  /\ wrun (line_world_ok world_no_completion)
       (lambda_handler ascii_encode toy_mac lc_not_validating
          (post_event Null))
     = ([], Done internal_error_response).
Proof.
  split; [reflexivity|].
  apply (@null_headers_is_500 ascii_encode toy_mac lc_not_validating
           (line_world_ok world_no_completion) (post_event Null)
           eq_refl eq_refl).
Defined.

(** X22 at a greeting: one reply, the greeting. *)
Lemma reply_carries_the_generated_response_witness :
  truthy (CHANNEL_ACCESS_TOKEN lc_validating) = true
  /\ fst (wrun (line_world_ok world_no_completion)
            (handle_text_message lc_validating ascii_lower cfg_key
               (text_event (lit "Hi there"))))
     = [Ev_reply_message (lit "reply-token") (Some greeting_text) (Done tt)].
Proof.
  split; [reflexivity|].
  destruct (@reply_carries_the_generated_response lc_validating ascii_lower
              cfg_key (line_world_ok world_no_completion)
              (text_event (lit "Hi there")) (Some greeting_text)
              eq_refl eq_refl) as [H _].
  apply (H tt). reflexivity.
Defined.

(** X23 at the search command with the completion endpoint unreachable: the
    user gets the apology. *)
Lemma pipeline_exception_becomes_apology_witness :
  snd (run world_no_completion
         (generate_response ascii_lower cfg_key (lit "search cats")))
  = Raised ConnectionError
  /\ exists o,
       wrun (line_world_ok world_no_completion)
         (handle_text_message lc_validating ascii_lower cfg_key
            (text_event (lit "search cats")))
       = (List.map In_pipeline
            (fst (run world_no_completion
                    (generate_response ascii_lower cfg_key
                       (lit "search cats"))))
          ++ [Ev_reply_message (lit "reply-token") (Some apology_text) o],
          Done tt).
Proof.
  split; [reflexivity|].
  apply (@pipeline_exception_becomes_apology lc_validating ascii_lower
           cfg_key (line_world_ok world_no_completion)
           (text_event (lit "search cats")) ConnectionError
           eq_refl eq_refl).
Defined.
